(** * Packet assembly pipeline of [PDFService.generatePacket]

    A shallow embedding of [src/services/pdfService.ts].  The asynchronous
    method is embedded as a state-passing computation over a world made of
    the array store (so that the in-place [sort] is visible) and the log of
    network requests issued so far.  Everything the method obtains from the
    platform or from collaborators (document fetches, the directory lookup,
    the rendering service, the clock, the JSON serialiser) is read from an
    environment record, so every theorem holds for all their behaviours.

    Conventions of the embedding:
    - [order] is an integer, as the data model has it, so the comparator
      [a.order - b.order] is consistent and the stable sort has one result;
    - strings are the UTF-8 bytes of the text; [includes] with an ASCII
      text searched for reads the same on bytes as on characters, and
      [toLowerCase] is exact on every character whose lower-case form
      contains an ASCII character;
    - an awaited operation returns, throws, or never settles;
    - [console] output is not part of the world. *)

From Stdlib Require Import ZArith NArith List String Ascii Bool Lia.
From Stdlib Require Import Permutation Sorted DecimalString.
From stdpp Require Import gmap strings sorting.
Import ListNotations.

Open Scope string_scope.
Open Scope list_scope.

(** ** JavaScript strings

    A string is the sequence of the UTF-8 bytes of its text; string
    concatenation is written [+:+] and list concatenation [++]. *)

Module JsString.

(** [s.includes(t)] *)
Fixpoint includes (s t : string) : bool :=
  if String.prefix t s then true
  else match s with
       | EmptyString => false
       | String _ s' => includes s' t
       end.

Definition lower_char (c : ascii) : ascii :=
  let n := nat_of_ascii c in
  if ((65 <=? n) && (n <=? 90))%nat then ascii_of_nat (n + 32) else c.

Definition byte_is (n : nat) (c : ascii) : bool := (nat_of_ascii c =? n)%nat.

(** [s.toLowerCase()].  The characters whose lower-case form contains an
    ASCII character are the letters [A] to [Z], U+212A KELVIN SIGN (bytes
    226 132 170), which becomes [k], and U+0130 LATIN CAPITAL LETTER I WITH
    DOT ABOVE (bytes 196 176), which becomes [i] followed by U+0307 (bytes
    204 135): these are lowered as the language does.  Every other
    character has a lower-case form without ASCII characters and is left
    as it is, which changes no search for an ASCII text in the result. *)
Fixpoint toLowerCase (s : string) : string :=
  match s with
  | EmptyString => EmptyString
  | String c s' =>
      match s' with
      | EmptyString => String (lower_char c) EmptyString
      | String c1 s'' =>
          if byte_is 196 c && byte_is 176 c1
          then String "i" (String (ascii_of_nat 204)
                             (String (ascii_of_nat 135) (toLowerCase s'')))
          else
            match s'' with
            | EmptyString => String (lower_char c) (toLowerCase s')
            | String c2 rest =>
                if byte_is 226 c && byte_is 132 c1 && byte_is 170 c2
                then String "k" (toLowerCase rest)
                else String (lower_char c) (toLowerCase s')
            end
      end
  end.

(** [s.split(sep)] for a one-character separator: never the empty array. *)
Fixpoint split (sep : ascii) (s : string) : list string :=
  match s with
  | EmptyString => [EmptyString]
  | String c s' =>
      if Ascii.eqb c sep then EmptyString :: split sep s'
      else match split sep s' with
           | [] => [String c EmptyString]
           | piece :: pieces => String c piece :: pieces
           end
  end.

(** [!s] on a string: only the empty string is falsy. *)
Definition is_empty (s : string) : bool :=
  match s with EmptyString => true | String _ _ => false end.

(** [s || d] on strings: the empty string is falsy. *)
Definition or_else (s d : string) : string :=
  if is_empty s then d else s.

(** [o || d] where [o] may be [undefined]. *)
Definition opt_or_else (o : option string) (d : string) : string :=
  match o with
  | Some s => or_else s d
  | None => d
  end.

(** [`${o}`] where [o] may be [undefined]. *)
Definition template_opt (o : option string) : string :=
  match o with
  | Some s => s
  | None => "undefined"
  end.

(** [`${n}`] for a non-negative integer below 10^21, printed in decimal. *)
Definition of_N (n : N) : string := NilEmpty.string_of_uint (N.to_uint n).

End JsString.

(** ** JavaScript values *)

Module JsValue.

#[local] Set Warnings "-register-all".

Inductive jsval : Type :=
| JUndefined
| JNull
| JBool (b : bool)
| JNum (n : Z)
| JStr (s : string)
| JArr (elems : list jsval)
| JObj (fields : list (string * jsval)).

Definition truthy (v : jsval) : bool :=
  match v with
  | JUndefined | JNull => false
  | JBool b => b
  | JNum n => negb (n =? 0)%Z
  | JStr s => negb (JsString.is_empty s)
  | JArr _ | JObj _ => true
  end.

Definition nullish (v : jsval) : bool :=
  match v with
  | JUndefined | JNull => true
  | _ => false
  end.

(** [a || b] *)
Definition js_or (a b : jsval) : jsval := if truthy a then a else b.

(** [a ?? b] *)
Definition js_nullish_or (a b : jsval) : jsval := if nullish a then b else a.

(** Own property [k] of an object literal given by its fields. *)
Fixpoint field (fields : list (string * jsval)) (k : string) : jsval :=
  match fields with
  | [] => JUndefined
  | (k', v) :: rest => if String.eqb k' k then v else field rest k
  end.

(** [v?.k]: [undefined] on [null] and [undefined]; the keys read by the
    pipeline are not properties of any built-in prototype, so reading them
    from a primitive or an array gives [undefined]. *)
Definition opt_get (v : jsval) (k : string) : jsval :=
  match v with
  | JObj fields => field fields k
  | _ => JUndefined
  end.

(** [v.k]: [None] stands for the [TypeError] raised on [null] and
    [undefined]. *)
Definition get (v : jsval) (k : string) : option jsval :=
  if nullish v then None else Some (opt_get v k).

Definition is_defined (v : jsval) : Prop := v <> JUndefined.

End JsValue.

Import JsString JsValue.

(** ** Thrown values, completions of awaited operations *)

(** [ClsError] is [Error] or any subclass other than [TypeError]. *)
Inductive ErrorClass : Type := ClsError | ClsTypeError.

(** What a [throw] or a rejected promise carries: an [Error] object, or a
    value that is not an instance of [Error]. *)
Inductive Thrown : Type :=
| ThrownError (cls : ErrorClass) (msg : string)
| ThrownOther.

(** [new Error(msg)] *)
Definition new_Error (msg : string) : Thrown := ThrownError ClsError msg.

Definition instanceof_Error (e : Thrown) : bool :=
  match e with ThrownError _ _ => true | ThrownOther => false end.

Definition instanceof_TypeError (e : Thrown) : bool :=
  match e with ThrownError ClsTypeError _ => true | _ => false end.

(** [e.message], read only behind an [instanceof] guard. *)
Definition message (e : Thrown) : string :=
  match e with ThrownError _ m => m | ThrownOther => EmptyString end.

(** How an awaited operation ends: it returns, it throws, or it never
    settles (the code sets no timeout on any network call). *)
Inductive Completion (A : Type) : Type :=
| Return (a : A)
| Throw (e : Thrown)
| Pending.

Arguments Return {A} a.
Arguments Throw {A} e.
Arguments Pending {A}.

(** ** Data model *)

(** [Document], owned by the registry; [name], [url] and [type] may be
    missing or empty, which the code guards against with [||]. *)
Record Document : Type := mkDocument {
  doc_id : string;
  doc_name : option string;
  doc_url : option string;
  doc_type : option string
}.

(** [SelectedDocument]; [order] is an integer. *)
Record SelectedDocument : Type := mkSelected {
  sd_id : string;
  sd_document : Document;
  sd_selected : bool;
  sd_order : Z
}.

(** An element of [documentsWithData]. *)
Record FetchedDocument : Type := mkFetched {
  fd_id : string;
  fd_name : string;
  fd_url : string;
  fd_type : string;
  fd_fileData : string
}.

(** The [status] object literal of the payload. *)
Record Status : Type := mkStatus {
  forReview : jsval;
  forApproval : jsval;
  forRecord : jsval;
  forInformationOnly : jsval
}.

(** The [submittalType] object literal of the payload. *)
Record SubmittalType : Type := mkSubmittalType {
  tds : jsval;
  threePartSpecs : jsval;
  testReportIccEsr5194 : jsval;
  testReportIccEsl1645 : jsval;
  fireAssembly : jsval;
  fireAssembly01 : jsval;
  fireAssembly02 : jsval;
  fireAssembly03 : jsval;
  msds : jsval;
  leedGuide : jsval;
  installationGuide : jsval;
  warranty : jsval;
  samples : jsval;
  other : jsval;
  otherText : jsval
}.

(** The [projectData] object literal of the payload. *)
Record ProjectData : Type := mkProjectData {
  projectName : jsval;
  submittedTo : jsval;
  preparedBy : jsval;
  date : jsval;
  projectNumber : jsval;
  emailAddress : jsval;
  phoneNumber : jsval;
  product : jsval;
  productType : jsval;
  status : Status;
  submittalType : SubmittalType
}.

(** The request body posted to the rendering service. *)
Record Payload : Type := mkPayload {
  projectData : ProjectData;
  documents : list FetchedDocument;
  selectedDocumentNames : list string;
  allAvailableDocuments : list string
}.

(** [Partial<ProjectFormData>]: an object given by the fields it has. *)
Definition FormData : Type := list (string * jsval).

(** ** The platform and the collaborators *)

(** The [Blob] of a fetched document: its content type and what
    [FileReader.readAsDataURL] produces for it ([None]: the read fails). *)
Record Blob : Type := mkBlob {
  blob_type : string;
  blob_dataURL : option string
}.

(** The [Response] of a document fetch. *)
Record DocResponse : Type := mkDocResponse {
  dr_ok : bool;
  dr_status : N;
  dr_statusText : string;
  dr_blob : Completion Blob
}.

(** The [Response] of the rendering service.  [wr_text] is what [text()]
    answers when it is called after [json()] did not produce a usable
    object; on a standard [Response] that is a rejection with a
    [TypeError], [json()] having read the body already. *)
Record WorkerResponse : Type := mkWorkerResponse {
  wr_ok : bool;
  wr_status : N;
  wr_statusText : string;
  wr_json : Completion jsval;
  wr_text : Completion string;
  wr_arrayBuffer : Completion (list Byte.byte)
}.

(** The network requests the method can issue. *)
Inductive NetEvent : Type :=
| EvFetchDocument (url : string)
| EvDirectoryLookup (productType : jsval)
| EvWorkerPost (url : string) (payload : Payload).

(** Everything outside the method.  The [i]-th promise of the fan-out
    settles at time [completion_time i]; [fetch_document i url] is the
    outcome of the fetch issued for the [i]-th sorted document. *)
Record Env : Type := mkEnv {
  workerUrl : string;
  fetch_document : nat -> string -> Completion DocResponse;
  completion_time : nat -> nat;
  getDocumentsByProductType : jsval -> Completion (list Document);
  toLocaleDateString : string;
  fetch_worker : string -> Payload -> Completion WorkerResponse;
  JSON_stringify : jsval -> string;
  ToString : jsval -> string
}.

(** The constructor's choice of [workerUrl]. *)
Definition constructor_workerUrl (VITE_WORKER_URL : option string) : string :=
  opt_or_else VITE_WORKER_URL
    "https://pdf-packet-generator.maxterra-pdf-builder.workers.dev".

(** [`${v}`]: strings, booleans, [null] and [undefined] are printed as the
    language defines; numbers, arrays and objects by the platform. *)
Definition template (env : Env) (v : jsval) : string :=
  match v with
  | JStr s => s
  | JUndefined => "undefined"
  | JNull => "null"
  | JBool true => "true"
  | JBool false => "false"
  | _ => ToString env v
  end.

(** ** The world: array store and request log *)

Definition loc : Type := nat.

Record World : Type := mkWorld {
  w_heap : gmap nat (list SelectedDocument);
  w_trace : list NetEvent
}.

Definition Async (A : Type) : Type := World -> Completion A * World.

Definition ret {A} (a : A) : Async A := fun w => (Return a, w).

Definition throw {A} (e : Thrown) : Async A := fun w => (Throw e, w).

Definition bind {A B} (m : Async A) (k : A -> Async B) : Async B :=
  fun w =>
    match m w with
    | (Return a, w') => k a w'
    | (Throw e, w') => (Throw e, w')
    | (Pending, w') => (Pending, w')
    end.

(** [try { m } catch (e) { handler e }] *)
Definition try_catch {A} (m : Async A) (handler : Thrown -> Async A) : Async A :=
  fun w =>
    match m w with
    | (Throw e, w') => handler e w'
    | r => r
    end.

(** [await p] for an operation whose outcome is known to the environment. *)
Definition await {A} (c : Completion A) : Async A := fun w => (c, w).

(** Issue a network request. *)
Definition emit (ev : NetEvent) : Async unit :=
  fun w => (Return tt, mkWorld (w_heap w) (w_trace w ++ [ev])).

(** The promise of an async call, observed without awaiting it. *)
Definition promise_of {A} (m : Async A) : Async (Completion A) :=
  fun w => let (c, w') := m w in (Return c, w').

Notation "'let*' x ':=' m 'in' k" := (bind m (fun x => k))
  (at level 10, x name, m at level 100, k at level 200).

(** ** Arrays of selectable documents *)

(** Reading the elements of an array; a reference the store does not
    hold reads as the empty array. *)
Definition read_array (a : loc) : Async (list SelectedDocument) :=
  fun w => (Return (default [] (w_heap w !! a)), w).

(** [a.filter(p)]: a new array. *)
Definition Array_filter (p : SelectedDocument -> bool) (a : loc) : Async loc :=
  fun w =>
    let elems := default [] (w_heap w !! a) in
    let fresh_loc := fresh (dom (w_heap w)) in
    (Return fresh_loc,
     mkWorld (<[fresh_loc := List.filter p elems]> (w_heap w)) (w_trace w)).

Section Sort.

Context {A : Type} (cmp : A -> A -> Z).

(** Insertion of [x] in front of the first element it does not follow. *)
Fixpoint insert_sorted (x : A) (l : list A) : list A :=
  match l with
  | [] => [x]
  | y :: l' =>
      if (cmp x y <=? 0)%Z then x :: y :: l'
      else y :: insert_sorted x l'
  end.

(** The order [Array.prototype.sort] produces: the sort is stable, so for
    a consistent comparator the result is the one of any stable sort. *)
Fixpoint sorted_by (l : list A) : list A :=
  match l with
  | [] => []
  | x :: l' => insert_sorted x (sorted_by l')
  end.

End Sort.

(** [a.sort(cmp)]: sorts [a] in place and returns [a] itself. *)
Definition Array_sort (cmp : SelectedDocument -> SelectedDocument -> Z)
    (a : loc) : Async loc :=
  fun w =>
    let elems := default [] (w_heap w !! a) in
    (Return a, mkWorld (<[a := sorted_by cmp elems]> (w_heap w)) (w_trace w)).

(** ** Per-document processing *)

(** State of the promise built by [new Promise((resolve, reject) => ...)]:
    [None] while it is pending.  Only the first call settles it. *)
Definition PromiseState : Type := option (Completion string).

Definition resolve (v : string) (p : PromiseState) : PromiseState :=
  match p with
  | None => Some (Return v)
  | Some _ => p
  end.

Definition reject (e : Thrown) (p : PromiseState) : PromiseState :=
  match p with
  | None => Some (Throw e)
  | Some _ => p
  end.

(** [base64String.split(',')[1] || ''] *)
Definition base64_payload (base64String : string) : string :=
  match nth_error (split "," base64String) 1 with
  | Some s => or_else s EmptyString
  | None => EmptyString
  end.

(** The [onloadend] handler: [reject] when the payload is empty, and then
    [resolve] in every case. *)
Definition onloadend (base64String : string) (p : PromiseState) : PromiseState :=
  let base64Data := base64_payload base64String in
  let p := if is_empty base64Data
           then reject (new_Error "Failed to encode document as base64") p
           else p in
  resolve base64Data p.

(** The [onerror] handler. *)
Definition onerror (p : PromiseState) : PromiseState :=
  reject (new_Error "Failed to read document file") p.

(** [reader.readAsDataURL(blob)]: a failed read fires [error] and then
    [loadend] with a [null] result, on which the [onloadend] handler raises
    inside the event dispatch before it calls [reject] or [resolve]; a
    successful read fires [loadend] with the data URL. *)
Definition readAsDataURL (blob : Blob) (p : PromiseState) : PromiseState :=
  match blob_dataURL blob with
  | Some base64String => onloadend base64String p
  | None => onerror p
  end.

(** [await new Promise(...)] around the reader. *)
Definition encode (blob : Blob) : Completion string :=
  match readAsDataURL blob None with
  | Some c => c
  | None => Pending
  end.

(** The async callback of [sortedDocs.map], for the document at index [i]
    of the sorted selection. *)
Definition processDocument (env : Env) (i : nat) (doc : SelectedDocument)
    : Async FetchedDocument :=
  let d := sd_document doc in
  try_catch
    (let* fileData :=
       match doc_url d with
       | Some (String c u) =>
           let url := String c u in
           let* _ := emit (EvFetchDocument url) in
           let* response := await (fetch_document env i url) in
           if negb (dr_ok response)
           then throw (new_Error ("Failed to fetch document: "
                                  +:+ of_N (dr_status response) +:+ " "
                                  +:+ dr_statusText response))
           else
             let* blob := await (dr_blob response) in
             await (encode blob)
       | _ =>
           throw (new_Error ("Document " +:+ template_opt (doc_name d)
                             +:+ " has no URL"))
       end in
     ret {| fd_id := sd_id doc;
            fd_name := opt_or_else (doc_name d) "Unnamed Document";
            fd_url := opt_or_else (doc_url d) EmptyString;
            fd_type := opt_or_else (doc_type d) "other";
            fd_fileData := or_else fileData EmptyString |})
    (fun _ =>
       throw (new_Error ("Failed to process document: "
                         +:+ template_opt (doc_name d)))).

(** [sortedDocs.map(async (doc) => ...)]: every callback runs up to its
    first suspension, in array order, which issues the fetches; the
    result is the array of their promises. *)
Fixpoint map_async {A} (f : nat -> SelectedDocument -> Async A) (i : nat)
    (docs : list SelectedDocument) : Async (list (Completion A)) :=
  match docs with
  | [] => ret []
  | doc :: rest =>
      let* p := promise_of (f i doc) in
      let* ps := map_async f (S i) rest in
      ret (p :: ps)
  end.

(** The rejection that settles first among the promises from index [i]
    on, with its time; among rejections at the same time the one of the
    lowest index. *)
Fixpoint earliest_rejection {A} (time : nat -> nat) (i : nat)
    (ps : list (Completion A)) : option (nat * Thrown) :=
  match ps with
  | [] => None
  | p :: rest =>
      let later := earliest_rejection time (S i) rest in
      match p with
      | Throw e =>
          match later with
          | Some (t, e') => if (t <? time i)%nat then later else Some (time i, e)
          | None => Some (time i, e)
          end
      | _ => later
      end
  end.

(** The fulfilment values in array order, when every promise fulfils. *)
Fixpoint all_values {A} (ps : list (Completion A)) : option (list A) :=
  match ps with
  | [] => Some []
  | Return a :: rest => option_map (cons a) (all_values rest)
  | _ :: rest => None
  end.

(** [Promise.all(ps)]: rejects with the first rejection to occur,
    otherwise fulfils with the values in array order once all fulfilled. *)
Definition Promise_all {A} (time : nat -> nat) (ps : list (Completion A))
    : Completion (list A) :=
  match earliest_rejection time 0 ps with
  | Some (_, e) => Throw e
  | None =>
      match all_values ps with
      | Some values => Return values
      | None => Pending
      end
  end.

(** ** Payload *)

Definition JFalse : jsval := JBool false.

(** [formData.k] *)
Definition prop (formData : FormData) (k : string) : jsval := field formData k.

(** [formData.productType as ProductType || 'structural-floor'] *)
Definition productType_of (formData : FormData) : jsval :=
  js_or (prop formData "productType") (JStr "structural-floor").

(** The [projectData] literal: every field with its fallback. *)
Definition build_projectData (env : Env) (formData : FormData) : ProjectData :=
  let st := prop formData "status" in
  let sub := prop formData "submittalType" in
  {| projectName := js_or (prop formData "projectName") (JStr "Untitled Project");
     submittedTo := js_or (prop formData "submittedTo") (JStr "N/A");
     preparedBy := js_or (prop formData "preparedBy") (JStr "N/A");
     date := js_or (prop formData "date") (JStr (toLocaleDateString env));
     projectNumber := js_or (prop formData "projectNumber") (JStr "N/A");
     emailAddress := js_or (prop formData "emailAddress") (JStr "N/A");
     phoneNumber := js_or (prop formData "phoneNumber") (JStr "N/A");
     product := js_or (prop formData "product") (JStr "3/4-in (20mm)");
     productType := productType_of formData;
     status :=
       {| forReview := js_nullish_or (opt_get st "forReview") JFalse;
          forApproval := js_nullish_or (opt_get st "forApproval") JFalse;
          forRecord := js_nullish_or (opt_get st "forRecord") JFalse;
          forInformationOnly :=
            js_nullish_or (opt_get st "forInformationOnly") JFalse |};
     submittalType :=
       {| tds := js_nullish_or (opt_get sub "tds") JFalse;
          threePartSpecs := js_nullish_or (opt_get sub "threePartSpecs") JFalse;
          testReportIccEsr5194 :=
            js_nullish_or (opt_get sub "testReportIccEsr5194") JFalse;
          testReportIccEsl1645 :=
            js_nullish_or (opt_get sub "testReportIccEsl1645") JFalse;
          fireAssembly := js_nullish_or (opt_get sub "fireAssembly") JFalse;
          fireAssembly01 := js_nullish_or (opt_get sub "fireAssembly01") JFalse;
          fireAssembly02 := js_nullish_or (opt_get sub "fireAssembly02") JFalse;
          fireAssembly03 := js_nullish_or (opt_get sub "fireAssembly03") JFalse;
          msds := js_nullish_or (opt_get sub "msds") JFalse;
          leedGuide := js_nullish_or (opt_get sub "leedGuide") JFalse;
          installationGuide :=
            js_nullish_or (opt_get sub "installationGuide") JFalse;
          warranty := js_nullish_or (opt_get sub "warranty") JFalse;
          samples := js_nullish_or (opt_get sub "samples") JFalse;
          other := js_nullish_or (opt_get sub "other") JFalse;
          otherText := js_or (opt_get sub "otherText") (JStr EmptyString) |} |}.

(** [sortedDocs.map(doc => doc.document.name || 'Unnamed Document')] *)
Definition names_of (sortedDocs : list SelectedDocument) : list string :=
  map (fun doc => opt_or_else (doc_name (sd_document doc)) "Unnamed Document")
      sortedDocs.

(** [allCategoryDocs.map(doc => doc.name).filter(Boolean)] *)
Definition available_names (allCategoryDocs : list Document) : list string :=
  omap (fun doc => match doc_name doc with
                   | Some (String c n) => Some (String c n)
                   | _ => None
                   end) allCategoryDocs.

Definition build_payload (env : Env) (formData : FormData)
    (sortedDocs : list SelectedDocument)
    (documentsWithData : list FetchedDocument)
    (allCategoryDocs : list Document) : Payload :=
  {| projectData := build_projectData env formData;
     documents := documentsWithData;
     selectedDocumentNames := names_of sortedDocs;
     allAvailableDocuments := available_names allCategoryDocs |}.

(** ** Rendering-service response *)

(** The text appended to the error message of a non-success response:
    [errorData.message || JSON.stringify(errorData)] when [json()] gives a
    value whose [message] can be read, the text body otherwise. *)
Definition error_detail (env : Env) (workerResponse : WorkerResponse)
    : Async string :=
  try_catch
    (let* errorData := await (wr_json workerResponse) in
     match get errorData "message" with
     | Some m =>
         ret (template env (js_or m (JStr (JSON_stringify env errorData))))
     | None =>
         throw (ThrownError ClsTypeError
                  "Cannot read properties of null (reading 'message')")
     end)
    (fun _ => await (wr_text workerResponse)).

Definition worker_error_prefix (workerResponse : WorkerResponse) : string :=
  "Worker request failed: " +:+ of_N (wr_status workerResponse) +:+ " "
  +:+ wr_statusText workerResponse.

(** ** The catch clause of [generatePacket] *)

Definition connectivity_message (env : Env) : string :=
  ("Cannot connect to PDF Worker at " +:+ workerUrl env +:+ ". ")
  +:+ "Please check your internet connection and verify the worker is accessible.".

Definition documents_message : string :=
  "One or more documents could not be loaded. Please verify all documents are accessible and try again.".

Definition storage_message : string :=
  "Document storage is not properly configured. Please contact support or verify your Supabase setup.".

Definition classify (env : Env) (error : Thrown) : Thrown :=
  if instanceof_TypeError error && includes (message error) "fetch"
  then new_Error (connectivity_message env)
  else if instanceof_Error error
          && includes (message error) "Failed to process document"
  then new_Error documents_message
  else if instanceof_Error error
          && includes (toLowerCase (message error)) "bucket"
  then new_Error storage_message
  else if instanceof_Error error then error
  else new_Error "Failed to generate PDF packet".

(** ** [generatePacket] *)

Definition compare_order (a b : SelectedDocument) : Z := sd_order a - sd_order b.

(** The best-effort directory lookup: [allCategoryDocs] stays [[]] when
    it fails. *)
Definition lookup_category_documents (env : Env) (productType : jsval)
    : Async (list Document) :=
  try_catch
    (let* _ := emit (EvDirectoryLookup productType) in
     await (getDocumentsByProductType env productType))
    (fun _ => ret []).

(** What follows the [fetch] of the rendering service. *)
Definition handle_response (env : Env) (workerResponse : WorkerResponse)
    : Async (list Byte.byte) :=
  if negb (wr_ok workerResponse)
  then
    let* detail := error_detail env workerResponse in
    throw (new_Error (worker_error_prefix workerResponse +:+ " - " +:+ detail))
  else
    let* pdfBuffer := await (wr_arrayBuffer workerResponse) in
    if (length pdfBuffer =? 0)%nat
    then throw (new_Error "Received empty PDF from worker")
    else ret pdfBuffer.

Definition endpoint (env : Env) : string := workerUrl env +:+ "/generate-packet".

(** The part of the [try] block after [await Promise.all(...)]. *)
Definition send_packet (env : Env) (formData : FormData)
    (sortedDocs : list SelectedDocument)
    (documentsWithData : list FetchedDocument) : Async (list Byte.byte) :=
  let productType := productType_of formData in
  let* allCategoryDocs := lookup_category_documents env productType in
  let payload :=
    build_payload env formData sortedDocs documentsWithData allCategoryDocs in
  let* _ := emit (EvWorkerPost (endpoint env) payload) in
  let* workerResponse := await (fetch_worker env (endpoint env) payload) in
  handle_response env workerResponse.

(** The body of the [try] block. *)
Definition generatePacket_try (env : Env) (formData : FormData)
    (selectedDocuments : loc) : Async (list Byte.byte) :=
  let* filtered := Array_filter sd_selected selectedDocuments in
  let* sortedRef := Array_sort compare_order filtered in
  let* sortedDocs := read_array sortedRef in
  if (length sortedDocs =? 0)%nat
  then throw (new_Error "No documents selected for packet generation")
  else
    let* promises := map_async (processDocument env) 0 sortedDocs in
    let* documentsWithData :=
      await (Promise_all (completion_time env) promises) in
    send_packet env formData sortedDocs documentsWithData.

Definition generatePacket (env : Env) (formData : FormData)
    (selectedDocuments : loc) : Async (list Byte.byte) :=
  try_catch (generatePacket_try env formData selectedDocuments)
            (fun error => throw (classify env error)).

(** The call from a store [h] with an empty request log: its completion,
    the requests it issued, and the store it leaves. *)
Definition outcome (env : Env) (formData : FormData) (arr : loc)
    (h : gmap nat (list SelectedDocument)) : Completion (list Byte.byte) :=
  fst (generatePacket env formData arr (mkWorld h [])).

Definition issued (env : Env) (formData : FormData) (arr : loc)
    (h : gmap nat (list SelectedDocument)) : list NetEvent :=
  w_trace (snd (generatePacket env formData arr (mkWorld h []))).

Definition heap_after (env : Env) (formData : FormData) (arr : loc)
    (h : gmap nat (list SelectedDocument)) : gmap nat (list SelectedDocument) :=
  w_heap (snd (generatePacket env formData arr (mkWorld h []))).

(** The sorted selection the call works on. *)
Definition sorted_selection (docs : list SelectedDocument) : list SelectedDocument :=
  sorted_by compare_order (List.filter sd_selected docs).

(** * Vocabulary of the statements *)

(** Ascending key. *)
Definition key_le {B} (key : B -> Z) (a b : B) : Prop := (key a <= key b)%Z.

(** Ascending key, and ascending tag among equal keys. *)
Definition lex_lt {B} (key : B -> Z) (tag : B -> nat) (a b : B) : Prop :=
  (key a < key b)%Z \/ (key a = key b /\ (tag a < tag b)%nat).

(** The entries of the input array with their positions. *)
Definition indexed (docs : list SelectedDocument) : list (nat * SelectedDocument) :=
  combine (seq 0 (length docs)) docs.

(** Position [i] of the input holds a selected entry. *)
Definition selected_at (docs : list SelectedDocument) (i : nat) : Prop :=
  exists d, nth_error docs i = Some d /\ sd_selected d = true.

(** The entry at position [i] goes before the one at position [j]: lower
    [order], or the same [order] and an earlier position. *)
Definition goes_before (docs : list SelectedDocument) (i j : nat) : Prop :=
  exists a b, nth_error docs i = Some a /\ nth_error docs j = Some b /\
    ((sd_order a < sd_order b)%Z \/ (sd_order a = sd_order b /\ (i < j)%nat)).

(** [w] with further requests logged. *)
Definition log (w : World) (evs : list NetEvent) : World :=
  mkWorld (w_heap w) (w_trace w ++ evs).

(** The request a document's callback issues before it first suspends. *)
Definition document_requests (doc : SelectedDocument) : list NetEvent :=
  match doc_url (sd_document doc) with
  | Some (String c u) => [EvFetchDocument (String c u)]
  | _ => []
  end.

(** How the promise of the callback for the [i]-th sorted document settles. *)
Definition document_outcome (env : Env) (i : nat) (doc : SelectedDocument)
    : Completion FetchedDocument :=
  fst (processDocument env i doc (mkWorld ∅ [])).

Fixpoint document_outcomes (env : Env) (i : nat) (docs : list SelectedDocument)
    : list (Completion FetchedDocument) :=
  match docs with
  | [] => []
  | doc :: rest => document_outcome env i doc :: document_outcomes env (S i) rest
  end.

(** The error the callback's [catch] clause throws. *)
Definition processing_error (doc : SelectedDocument) : Thrown :=
  new_Error ("Failed to process document: "
             +:+ template_opt (doc_name (sd_document doc))).

(** The store after [filter] and [sort]: one new array, holding the
    sorted selection. *)
Definition heap_sorted (h : gmap nat (list SelectedDocument))
    (docs : list SelectedDocument) : gmap nat (list SelectedDocument) :=
  <[fresh (dom h) := sorted_selection docs]> h.

(** What the directory lookup leaves in [allCategoryDocs]. *)
Definition directory_result (env : Env) (formData : FormData)
    : Completion (list Document) :=
  match getDocumentsByProductType env (productType_of formData) with
  | Return docs => Return docs
  | Throw _ => Return []
  | Pending => Pending
  end.

(** How the call ends once the rendering service has answered. *)
Definition response_outcome (env : Env) (workerResponse : WorkerResponse)
    : Completion (list Byte.byte) :=
  fst (handle_response env workerResponse (mkWorld ∅ [])).

(** The effect of the outer [catch] clause on a completion. *)
Definition rethrown {A} (env : Env) (c : Completion A) : Completion A :=
  match c with
  | Throw e => Throw (classify env e)
  | _ => c
  end.

Definition no_documents_error : Thrown :=
  new_Error "No documents selected for packet generation".

(** [fdoc] is the record built from the selected entry [doc]. *)
Definition fetched_from (doc : SelectedDocument) (fdoc : FetchedDocument) : Prop :=
  fd_id fdoc = sd_id doc
  /\ fd_name fdoc = opt_or_else (doc_name (sd_document doc)) "Unnamed Document"
  /\ doc_url (sd_document doc) = Some (fd_url fdoc)
  /\ fd_type fdoc = opt_or_else (doc_type (sd_document doc)) "other"
  /\ fd_fileData fdoc <> EmptyString.

(** [name] is the display name sent for the selected entry [doc]. *)
Definition name_from (doc : SelectedDocument) (name : string) : Prop :=
  name = opt_or_else (doc_name (sd_document doc)) "Unnamed Document".

(** Every field of the [projectData] object is defined. *)
Definition all_defined (pd : ProjectData) : Prop :=
  Forall is_defined
    [ projectName pd; submittedTo pd; preparedBy pd; date pd; projectNumber pd;
      emailAddress pd; phoneNumber pd; product pd; productType pd;
      forReview (status pd); forApproval (status pd); forRecord (status pd);
      forInformationOnly (status pd);
      tds (submittalType pd); threePartSpecs (submittalType pd);
      testReportIccEsr5194 (submittalType pd);
      testReportIccEsl1645 (submittalType pd);
      fireAssembly (submittalType pd); fireAssembly01 (submittalType pd);
      fireAssembly02 (submittalType pd); fireAssembly03 (submittalType pd);
      msds (submittalType pd); leedGuide (submittalType pd);
      installationGuide (submittalType pd); warranty (submittalType pd);
      samples (submittalType pd); other (submittalType pd);
      otherText (submittalType pd) ].

(** [absent v d out]: if the input value [v] is absent, the output is [d]. *)
Definition defaulted (v d out : jsval) : Prop := v = JUndefined -> out = d.

(** Each field absent from [formData] has its documented default in [pd]. *)
Definition defaults_applied (env : Env) (formData : FormData) (pd : ProjectData)
    : Prop :=
  let top k := prop formData k in
  let st k := opt_get (prop formData "status") k in
  let sub k := opt_get (prop formData "submittalType") k in
  Forall (fun c => defaulted (fst (fst c)) (snd (fst c)) (snd c))
    [ (top "projectName", JStr "Untitled Project", projectName pd);
      (top "submittedTo", JStr "N/A", submittedTo pd);
      (top "preparedBy", JStr "N/A", preparedBy pd);
      (top "date", JStr (toLocaleDateString env), date pd);
      (top "projectNumber", JStr "N/A", projectNumber pd);
      (top "emailAddress", JStr "N/A", emailAddress pd);
      (top "phoneNumber", JStr "N/A", phoneNumber pd);
      (top "product", JStr "3/4-in (20mm)", product pd);
      (top "productType", JStr "structural-floor", productType pd);
      (st "forReview", JBool false, forReview (status pd));
      (st "forApproval", JBool false, forApproval (status pd));
      (st "forRecord", JBool false, forRecord (status pd));
      (st "forInformationOnly", JBool false, forInformationOnly (status pd));
      (sub "tds", JBool false, tds (submittalType pd));
      (sub "threePartSpecs", JBool false, threePartSpecs (submittalType pd));
      (sub "testReportIccEsr5194", JBool false,
       testReportIccEsr5194 (submittalType pd));
      (sub "testReportIccEsl1645", JBool false,
       testReportIccEsl1645 (submittalType pd));
      (sub "fireAssembly", JBool false, fireAssembly (submittalType pd));
      (sub "fireAssembly01", JBool false, fireAssembly01 (submittalType pd));
      (sub "fireAssembly02", JBool false, fireAssembly02 (submittalType pd));
      (sub "fireAssembly03", JBool false, fireAssembly03 (submittalType pd));
      (sub "msds", JBool false, msds (submittalType pd));
      (sub "leedGuide", JBool false, leedGuide (submittalType pd));
      (sub "installationGuide", JBool false,
       installationGuide (submittalType pd));
      (sub "warranty", JBool false, warranty (submittalType pd));
      (sub "samples", JBool false, samples (submittalType pd));
      (sub "other", JBool false, other (submittalType pd));
      (sub "otherText", JStr EmptyString, otherText (submittalType pd)) ].

(** The ways the processing of the [i]-th sorted document fails: no
    usable url, a fetch that rejects, a non-ok response, a body that cannot
    be read, a failed read by the reader, an empty encoding. *)
Inductive DocumentFails (env : Env) (i : nat) (doc : SelectedDocument) : Prop :=
| FailsNoUrl :
    doc_url (sd_document doc) = None \/ doc_url (sd_document doc) = Some EmptyString ->
    DocumentFails env i doc
| FailsFetch (url : string) (e : Thrown) :
    doc_url (sd_document doc) = Some url ->
    fetch_document env i url = Throw e ->
    DocumentFails env i doc
| FailsStatus (url : string) (response : DocResponse) :
    doc_url (sd_document doc) = Some url ->
    fetch_document env i url = Return response ->
    dr_ok response = false ->
    DocumentFails env i doc
| FailsBlob (url : string) (response : DocResponse) (e : Thrown) :
    doc_url (sd_document doc) = Some url ->
    fetch_document env i url = Return response ->
    dr_ok response = true ->
    dr_blob response = Throw e ->
    DocumentFails env i doc
| FailsRead (url : string) (response : DocResponse) (blob : Blob) :
    doc_url (sd_document doc) = Some url ->
    fetch_document env i url = Return response ->
    dr_ok response = true ->
    dr_blob response = Return blob ->
    blob_dataURL blob = None ->
    DocumentFails env i doc
| FailsEncode (url : string) (response : DocResponse) (blob : Blob)
    (base64String : string) :
    doc_url (sd_document doc) = Some url ->
    fetch_document env i url = Return response ->
    dr_ok response = true ->
    dr_blob response = Return blob ->
    blob_dataURL blob = Some base64String ->
    base64_payload base64String = EmptyString ->
    DocumentFails env i doc.

(** The message of [e] contains the display name of [doc]. *)
Definition names_document (e : Thrown) (doc : SelectedDocument) : Prop :=
  includes (message e) (template_opt (doc_name (sd_document doc))) = true.

Definition encoding_error : Thrown :=
  new_Error "Failed to encode document as base64".

(** The call gets as far as posting [payload]: something is selected,
    every document promise fulfils, the directory lookup settles. *)
Definition request_built (env : Env) (formData : FormData)
    (docs : list SelectedDocument) (payload : Payload) : Prop :=
  sorted_selection docs <> []
  /\ exists fetched allCategoryDocs,
       Forall2 (fun p v => p = Return v)
         (document_outcomes env 0 (sorted_selection docs)) fetched
       /\ directory_result env formData = Return allCategoryDocs
       /\ payload = build_payload env formData (sorted_selection docs) fetched
                      allCategoryDocs.

Definition empty_artifact_error : Thrown :=
  new_Error "Received empty PDF from worker".

(** The detail appended for a JSON body other than [null]:
    [errorData.message || JSON.stringify(errorData)], as text. *)
Definition json_detail (env : Env) (errorData : jsval) : string :=
  template env (js_or (opt_get errorData "message")
                      (JStr (JSON_stringify env errorData))).

(** The error text built for a non-success response. *)
Definition worker_error_message (r : WorkerResponse) (detail : string) : string :=
  worker_error_prefix r +:+ " - " +:+ detail.

(** The message of [e] contains the status, the status text and [detail]. *)
Definition carries (e : Thrown) (r : WorkerResponse) (detail : string) : Prop :=
  includes (message e) (of_N (wr_status r)) = true
  /\ includes (message e) (wr_statusText r) = true
  /\ includes (message e) detail = true.

(** The texts the catch clause reacts to. *)
Definition reclassified (msg : string) : bool :=
  includes msg "Failed to process document"
  || includes (toLowerCase msg) "bucket".

(** The error text built for a non-success response with the JSON body
    [errorData]. *)
Definition json_error_message (env : Env) (r : WorkerResponse)
    (errorData : jsval) : string :=
  worker_error_message r (json_detail env errorData).

(** The base64 payload of a data URL: base64 text has no comma, so the
    payload is what follows the last comma. *)
Definition data_url_payload (dataURL : string) : string :=
  List.last (split "," dataURL) EmptyString.

(** * Sample inputs *)

Definition pdf_blob (base64Data : string) : Blob :=
  mkBlob "application/pdf" (Some ("data:application/pdf;base64," +:+ base64Data)).

(** Every document is served, the directory is down, the rendering
    service answers two bytes; later documents settle first. *)
Definition sample_env : Env :=
  {| workerUrl := constructor_workerUrl None;
     fetch_document := fun _ _ =>
       Return (mkDocResponse true 200 "OK" (Return (pdf_blob "JVBERg==")));
     completion_time := fun i => (10 - i)%nat;
     getDocumentsByProductType := fun _ => Throw (new_Error "registry unavailable");
     toLocaleDateString := "November 3, 2026";
     fetch_worker := fun _ _ =>
       Return (mkWorkerResponse true 200 "OK" (Throw ThrownOther)
                 (Throw ThrownOther) (Return [Byte.x25; Byte.x50]));
     JSON_stringify := fun _ => "{}";
     ToString := fun _ => "[object Object]" |}.

Definition sample_doc (id name url : string) (selected : bool) (order : Z)
    : SelectedDocument :=
  mkSelected id (mkDocument id (Some name) (Some url) None) selected order.

Definition sample_docs : list SelectedDocument :=
  [ sample_doc "a" "A.pdf" "https://files/a" true 2;
    sample_doc "b" "B.pdf" "https://files/b" true 1;
    sample_doc "c" "C.pdf" "https://files/c" false 0;
    sample_doc "d" "D.pdf" "https://files/d" true 1 ].

Definition sample_heap (docs : list SelectedDocument) : gmap nat (list SelectedDocument) :=
  <[0%nat := docs]> ∅.

(** The request of the sample run. *)
Definition sample_payload : Payload :=
  Eval vm_compute in
    build_payload sample_env [] (sorted_selection sample_docs)
      (map (fun doc =>
              mkFetched (sd_id doc)
                (opt_or_else (doc_name (sd_document doc)) "Unnamed Document")
                (opt_or_else (doc_url (sd_document doc)) EmptyString)
                (opt_or_else (doc_type (sd_document doc)) "other")
                "JVBERg==")
           (sorted_selection sample_docs))
      [].

(** A selected document without a url. *)
Definition zeta : SelectedDocument :=
  mkSelected "z" (mkDocument "z" (Some "Zeta.pdf") None None) true 1.

(** The documents are served with an empty body. *)
Definition empty_body_env : Env :=
  {| workerUrl := workerUrl sample_env;
     fetch_document := fun _ _ =>
       Return (mkDocResponse true 200 "OK" (Return (pdf_blob EmptyString)));
     completion_time := completion_time sample_env;
     getDocumentsByProductType := getDocumentsByProductType sample_env;
     toLocaleDateString := toLocaleDateString sample_env;
     fetch_worker := fetch_worker sample_env;
     JSON_stringify := JSON_stringify sample_env;
     ToString := ToString sample_env |}.

(** The rendering service answers 200 with no body. *)
Definition empty_pdf_env : Env :=
  {| workerUrl := workerUrl sample_env;
     fetch_document := fetch_document sample_env;
     completion_time := completion_time sample_env;
     getDocumentsByProductType := getDocumentsByProductType sample_env;
     toLocaleDateString := toLocaleDateString sample_env;
     fetch_worker := fun _ _ =>
       Return (mkWorkerResponse true 200 "OK" (Throw ThrownOther)
                 (Throw ThrownOther) (Return []));
     JSON_stringify := JSON_stringify sample_env;
     ToString := ToString sample_env |}.

(** The rendering service rejects the request, naming a storage bucket. *)
Definition bucket_response : WorkerResponse :=
  mkWorkerResponse false 500 "Internal Server Error"
    (Return (JObj [("message", JStr "Bucket not found")]))
    (Throw (ThrownError ClsTypeError "body stream already read"))
    (Return []).

Definition bucket_env : Env :=
  {| workerUrl := workerUrl sample_env;
     fetch_document := fetch_document sample_env;
     completion_time := completion_time sample_env;
     getDocumentsByProductType := getDocumentsByProductType sample_env;
     toLocaleDateString := toLocaleDateString sample_env;
     fetch_worker := fun _ _ => Return bucket_response;
     JSON_stringify := JSON_stringify sample_env;
     ToString := ToString sample_env |}.

(** The rendering service answers 500 with the JSON body
    [{message: 'render failed'}]. *)
Definition render_failed_response : WorkerResponse :=
  mkWorkerResponse false 500 "Internal Server Error"
    (Return (JObj [("message", JStr "render failed")]))
    (Throw (ThrownError ClsTypeError "body stream already read"))
    (Return []).

Definition render_failed_env : Env :=
  {| workerUrl := workerUrl sample_env;
     fetch_document := fetch_document sample_env;
     completion_time := completion_time sample_env;
     getDocumentsByProductType := getDocumentsByProductType sample_env;
     toLocaleDateString := toLocaleDateString sample_env;
     fetch_worker := fun _ _ => Return render_failed_response;
     JSON_stringify := JSON_stringify sample_env;
     ToString := ToString sample_env |}.

(** The rendering service answers 502 with a body that is not JSON, on
    a standard [Response]: [json()] rejects, and [text()], called on the
    body [json()] has already read, rejects with a [TypeError]. *)
Definition unparsable_response : WorkerResponse :=
  mkWorkerResponse false 502 "Bad Gateway"
    (Throw (ThrownError ClsError "Unexpected token B in JSON at position 0"))
    (Throw (ThrownError ClsTypeError
              "Failed to execute 'text' on 'Response': body stream already read"))
    (Return []).

Definition unparsable_env : Env :=
  {| workerUrl := workerUrl sample_env;
     fetch_document := fetch_document sample_env;
     completion_time := completion_time sample_env;
     getDocumentsByProductType := getDocumentsByProductType sample_env;
     toLocaleDateString := toLocaleDateString sample_env;
     fetch_worker := fun _ _ => Return unparsable_response;
     JSON_stringify := JSON_stringify sample_env;
     ToString := ToString sample_env |}.

Definition double_quote : string := String (ascii_of_nat 34) EmptyString.

(** The data URL of an empty body whose media type has a parameter with a
    comma in it: [data:application/pdf;name=<q>a,b<q>;base64,] where [<q>]
    is the double quote. *)
Definition comma_data_url : string :=
  "data:application/pdf;name=" +:+ double_quote +:+ "a,b" +:+ double_quote
  +:+ ";base64,".

Definition comma_blob : Blob :=
  mkBlob ("application/pdf;name=" +:+ double_quote +:+ "a,b" +:+ double_quote)
         (Some comma_data_url).

(** The documents are served with an empty body of that media type. *)
Definition comma_env : Env :=
  {| workerUrl := workerUrl sample_env;
     fetch_document := fun _ _ =>
       Return (mkDocResponse true 200 "OK" (Return comma_blob));
     completion_time := completion_time sample_env;
     getDocumentsByProductType := getDocumentsByProductType sample_env;
     toLocaleDateString := toLocaleDateString sample_env;
     fetch_worker := fetch_worker sample_env;
     JSON_stringify := JSON_stringify sample_env;
     ToString := ToString sample_env |}.

(** U+212A KELVIN SIGN, in UTF-8. *)
Definition kelvin_sign : string :=
  String (ascii_of_nat 226) (String (ascii_of_nat 132)
    (String (ascii_of_nat 170) EmptyString)).

(** * Further vocabulary: the rest of [generatePacket] *)

(** The urls fetched, in the order of the requests. *)
Definition fetched_urls (evs : list NetEvent) : list string :=
  omap (fun ev => match ev with
                  | EvFetchDocument u => Some u
                  | _ => None
                  end) evs.

(** The url of a selected entry when it is truthy. *)
Definition usable_url (doc : SelectedDocument) : option string :=
  match doc_url (sd_document doc) with
  | Some (String c u) => Some (String c u)
  | _ => None
  end.

(** [e] is an [Error] none of the tests of the catch clause reacts to. *)
Definition unclassified (e : Thrown) : bool :=
  instanceof_Error e
  && negb (instanceof_TypeError e && includes (message e) "fetch")
  && negb (reclassified (message e)).

(** [s] contains the character [c]. *)
Fixpoint has_char (c : ascii) (s : string) : bool :=
  match s with
  | EmptyString => false
  | String c' s' => Ascii.eqb c' c || has_char c s'
  end.

(** A value the caller provided for a field is sent as it is: [kept test
    v out] says so for the values [v] that pass [test]. *)
Definition kept (test : jsval -> bool) (v out : jsval) : Prop :=
  test v = true -> out = v.

Definition not_nullish (v : jsval) : bool := negb (nullish v).

(** Truthy text fields and non-null flags of [formData] are sent
    unchanged. *)
Definition provided_values_kept (formData : FormData) (pd : ProjectData) : Prop :=
  let top k := prop formData k in
  let st k := opt_get (prop formData "status") k in
  let sub k := opt_get (prop formData "submittalType") k in
  Forall (fun c => kept (fst (fst c)) (snd (fst c)) (snd c))
    [ (truthy, top "projectName", projectName pd);
      (truthy, top "submittedTo", submittedTo pd);
      (truthy, top "preparedBy", preparedBy pd);
      (truthy, top "date", date pd);
      (truthy, top "projectNumber", projectNumber pd);
      (truthy, top "emailAddress", emailAddress pd);
      (truthy, top "phoneNumber", phoneNumber pd);
      (truthy, top "product", product pd);
      (truthy, top "productType", productType pd);
      (not_nullish, st "forReview", forReview (status pd));
      (not_nullish, st "forApproval", forApproval (status pd));
      (not_nullish, st "forRecord", forRecord (status pd));
      (not_nullish, st "forInformationOnly", forInformationOnly (status pd));
      (not_nullish, sub "tds", tds (submittalType pd));
      (not_nullish, sub "threePartSpecs", threePartSpecs (submittalType pd));
      (not_nullish, sub "testReportIccEsr5194",
       testReportIccEsr5194 (submittalType pd));
      (not_nullish, sub "testReportIccEsl1645",
       testReportIccEsl1645 (submittalType pd));
      (not_nullish, sub "fireAssembly", fireAssembly (submittalType pd));
      (not_nullish, sub "fireAssembly01", fireAssembly01 (submittalType pd));
      (not_nullish, sub "fireAssembly02", fireAssembly02 (submittalType pd));
      (not_nullish, sub "fireAssembly03", fireAssembly03 (submittalType pd));
      (not_nullish, sub "msds", msds (submittalType pd));
      (not_nullish, sub "leedGuide", leedGuide (submittalType pd));
      (not_nullish, sub "installationGuide",
       installationGuide (submittalType pd));
      (not_nullish, sub "warranty", warranty (submittalType pd));
      (not_nullish, sub "samples", samples (submittalType pd));
      (not_nullish, sub "other", other (submittalType pd));
      (truthy, sub "otherText", otherText (submittalType pd)) ].

(** A form with a name, an empty recipient and two status flags. *)
Definition sample_form : FormData :=
  [ ("projectName", JStr "Riverside Lofts");
    ("submittedTo", JStr EmptyString);
    ("productType", JStr "underlayment");
    ("status", JObj [("forReview", JBool true); ("forRecord", JNull)]) ].

(** The request of the sample run with [sample_form]. *)
Definition sample_form_payload : Payload :=
  Eval vm_compute in
    build_payload sample_env sample_form (sorted_selection sample_docs)
      (documents sample_payload) [].

(** The rendering service cannot be reached. *)
Definition offline_env : Env :=
  {| workerUrl := workerUrl sample_env;
     fetch_document := fetch_document sample_env;
     completion_time := completion_time sample_env;
     getDocumentsByProductType := getDocumentsByProductType sample_env;
     toLocaleDateString := toLocaleDateString sample_env;
     fetch_worker := fun _ _ => Throw (ThrownError ClsTypeError "Failed to fetch");
     JSON_stringify := JSON_stringify sample_env;
     ToString := ToString sample_env |}.

(** The rendering service cannot be reached, and the failure does not
    mention [fetch]. *)
Definition load_failed_env : Env :=
  {| workerUrl := workerUrl sample_env;
     fetch_document := fetch_document sample_env;
     completion_time := completion_time sample_env;
     getDocumentsByProductType := getDocumentsByProductType sample_env;
     toLocaleDateString := toLocaleDateString sample_env;
     fetch_worker := fun _ _ => Throw (ThrownError ClsTypeError "Load failed");
     JSON_stringify := JSON_stringify sample_env;
     ToString := ToString sample_env |}.

(** The request to the rendering service is rejected with a value that
    is not an [Error]. *)
Definition odd_rejection_env : Env :=
  {| workerUrl := workerUrl sample_env;
     fetch_document := fetch_document sample_env;
     completion_time := completion_time sample_env;
     getDocumentsByProductType := getDocumentsByProductType sample_env;
     toLocaleDateString := toLocaleDateString sample_env;
     fetch_worker := fun _ _ => Throw ThrownOther;
     JSON_stringify := JSON_stringify sample_env;
     ToString := ToString sample_env |}.

(** The directory answers two named documents and two without a usable
    name. *)
Definition directory_docs : list Document :=
  [ mkDocument "1" (Some "TDS.pdf") None None;
    mkDocument "2" (Some EmptyString) None None;
    mkDocument "3" None None None;
    mkDocument "4" (Some "ESR.pdf") None None ].

Definition directory_env : Env :=
  {| workerUrl := workerUrl sample_env;
     fetch_document := fetch_document sample_env;
     completion_time := completion_time sample_env;
     getDocumentsByProductType := fun _ => Return directory_docs;
     toLocaleDateString := toLocaleDateString sample_env;
     fetch_worker := fetch_worker sample_env;
     JSON_stringify := JSON_stringify sample_env;
     ToString := ToString sample_env |}.

(** The fetch of the second sorted document never settles. *)
Definition hanging_env : Env :=
  {| workerUrl := workerUrl sample_env;
     fetch_document := fun i url =>
       if (i =? 1)%nat then Pending else fetch_document sample_env i url;
     completion_time := completion_time sample_env;
     getDocumentsByProductType := getDocumentsByProductType sample_env;
     toLocaleDateString := toLocaleDateString sample_env;
     fetch_worker := fetch_worker sample_env;
     JSON_stringify := JSON_stringify sample_env;
     ToString := ToString sample_env |}.

(** * Artifact presentation: [previewPDF] and [downloadPDF] *)

(** [s.endsWith(t)] *)
Fixpoint endsWith (s t : string) : bool :=
  if String.eqb s t then true
  else match s with
       | EmptyString => false
       | String _ s' => endsWith s' t
       end.

(** The callbacks the two methods hand to the browser:
    [() => URL.revokeObjectURL(url)] and
    [() => { document.body.removeChild(link); URL.revokeObjectURL(url) }]. *)
Inductive Callback : Type :=
| RevokeCallback (url : nat)
| RemoveAndRevokeCallback (link : nat) (url : nat).

(** What the methods see and change of the browser: the live object URLs
    with the bytes they address, the nodes appended to [document.body], the
    files the user agent was asked to save (name, and content found at the
    link's address), the pending [setTimeout] callbacks with their delays,
    the windows opened (address shown, [onload] handler), and the object URL
    the current page was sent to. *)
Record Browser : Type := mkBrowser {
  b_object_urls : gmap nat (list Byte.byte);
  b_body : list nat;
  b_saved : list (string * option (list Byte.byte));
  b_timers : list (nat * Callback);
  b_windows : list (nat * option Callback);
  b_location : option nat
}.

(** The platform: whether [URL.createObjectURL] throws, and whether
    [window.open] is refused and returns [null]. *)
Record Platform : Type := mkPlatform {
  createObjectURL_throws : option Thrown;
  popup_blocked : bool
}.

(** [URL.createObjectURL(new Blob([pdfBytes], ...))]: a new address. *)
Definition createObjectURL (pf : Platform) (pdfBytes : list Byte.byte)
    (b : Browser) : Completion nat * Browser :=
  match createObjectURL_throws pf with
  | Some e => (Throw e, b)
  | None =>
      let url := fresh (dom (b_object_urls b)) in
      (Return url,
       mkBrowser (<[url := pdfBytes]> (b_object_urls b)) (b_body b) (b_saved b)
                 (b_timers b) (b_windows b) (b_location b))
  end.

(** [URL.revokeObjectURL(url)] *)
Definition revokeObjectURL (url : nat) (b : Browser) : Browser :=
  mkBrowser (delete url (b_object_urls b)) (b_body b) (b_saved b)
            (b_timers b) (b_windows b) (b_location b).

(** [document.createElement('a')]: a node that is nowhere yet. *)
Definition createElement (b : Browser) : nat :=
  fresh (list_to_set (b_body b) : gset nat).

(** [document.body.appendChild(link)] *)
Definition appendChild (link : nat) (b : Browser) : Browser :=
  mkBrowser (b_object_urls b) (b_body b ++ [link]) (b_saved b)
            (b_timers b) (b_windows b) (b_location b).

(** [document.body.removeChild(link)], for a [link] that is a child. *)
Definition removeChild (link : nat) (b : Browser) : Browser :=
  mkBrowser (b_object_urls b)
            (List.filter (fun n => negb (n =? link)%nat) (b_body b))
            (b_saved b) (b_timers b) (b_windows b) (b_location b).

(** [link.click()] on an anchor with [href] and [download] set: the user
    agent saves what the address holds under the given name. *)
Definition click (href : nat) (download : string) (b : Browser) : Browser :=
  mkBrowser (b_object_urls b) (b_body b)
            (b_saved b ++ [(download, b_object_urls b !! href)])
            (b_timers b) (b_windows b) (b_location b).

(** [setTimeout(callback, delay)] *)
Definition setTimeout (callback : Callback) (delay : nat) (b : Browser) : Browser :=
  mkBrowser (b_object_urls b) (b_body b) (b_saved b)
            (b_timers b ++ [(delay, callback)]) (b_windows b) (b_location b).

(** [window.open(url, '_blank')]: the new window, or [None] for [null]. *)
Definition window_open (pf : Platform) (url : nat) (b : Browser)
    : option nat * Browser :=
  if popup_blocked pf then (None, b)
  else (Some (length (b_windows b)),
        mkBrowser (b_object_urls b) (b_body b) (b_saved b) (b_timers b)
                  (b_windows b ++ [(url, None)]) (b_location b)).

(** [newWindow.onload = callback] *)
Definition set_onload (w : nat) (callback : Callback) (b : Browser) : Browser :=
  mkBrowser (b_object_urls b) (b_body b) (b_saved b) (b_timers b)
            (alter (fun win => (fst win, Some callback)) w (b_windows b))
            (b_location b).

(** [window.location.href = url] *)
Definition navigate (url : nat) (b : Browser) : Browser :=
  mkBrowser (b_object_urls b) (b_body b) (b_saved b) (b_timers b)
            (b_windows b) (Some url).

(** Running a callback.  [removeChild] raises when the link is no longer
    a child of the body, and the callback then stops before it revokes. *)
Definition run_callback (callback : Callback) (b : Browser) : Browser :=
  match callback with
  | RevokeCallback url => revokeObjectURL url b
  | RemoveAndRevokeCallback link url =>
      if existsb (Nat.eqb link) (b_body b)
      then revokeObjectURL url (removeChild link b)
      else b
  end.

(** The [load] event of window [w]. *)
Definition window_loaded (w : nat) (b : Browser) : Browser :=
  match b_windows b !! w with
  | Some (_, Some callback) => run_callback callback b
  | _ => b
  end.

Definition preview_error : Thrown :=
  new_Error "Failed to preview PDF. Please try again or download the file instead.".

Definition download_error : Thrown :=
  new_Error "Failed to download PDF. Please try again.".

(** [previewPDF(pdfBytes)] *)
Definition previewPDF (pf : Platform) (pdfBytes : list Byte.byte) (b : Browser)
    : Completion unit * Browser :=
  match createObjectURL pf pdfBytes b with
  | (Return url, b1) =>
      match window_open pf url b1 with
      | (Some newWindow, b2) =>
          (Return tt, set_onload newWindow (RevokeCallback url) b2)
      | (None, b2) =>
          (Return tt, setTimeout (RevokeCallback url) 100 (navigate url b2))
      end
  | (Throw _, b1) => (Throw preview_error, b1)
  | (Pending, b1) => (Pending, b1)
  end.

(** The name under which [downloadPDF] saves. *)
Definition download_name (filename : string) : string :=
  if negb (endsWith filename ".pdf") then filename +:+ ".pdf" else filename.

(** [downloadPDF(pdfBytes, filename)] *)
Definition downloadPDF (pf : Platform) (pdfBytes : list Byte.byte)
    (filename : string) (b : Browser) : Completion unit * Browser :=
  let filename := download_name filename in
  match createObjectURL pf pdfBytes b with
  | (Return url, b1) =>
      let link := createElement b1 in
      let b2 := appendChild link b1 in
      let b3 := click url filename b2 in
      (Return tt, setTimeout (RemoveAndRevokeCallback link url) 100 b3)
  | (Throw _, b1) => (Throw download_error, b1)
  | (Pending, b1) => (Pending, b1)
  end.

(** A browser with one live object URL, one node in the body and one
    pending callback; platforms that allow or refuse new windows, or lack
    object URLs. *)
Definition sample_browser : Browser :=
  mkBrowser (<[0%nat := [Byte.x01]]> ∅) [7%nat] []
            [(50%nat, RevokeCallback 0)] [] None.

Definition open_platform : Platform := mkPlatform None false.

Definition blocking_platform : Platform := mkPlatform None true.

Definition broken_platform : Platform :=
  mkPlatform (Some (ThrownError ClsTypeError "URL.createObjectURL is not a function"))
             false.

(** * The [documents] table: [url] and [file_url] *)

(** A row of [documents]: the two address columns, [NULL] being [None],
    and the other columns by name. *)
Record DocumentRow : Type := mkRow {
  row_file_url : option string;
  row_url : option string;
  row_other : list (string * string)
}.

(** [a IS DISTINCT FROM b] *)
Definition is_distinct_from (a b : option string) : bool :=
  match a, b with
  | None, None => false
  | Some x, Some y => negb (String.eqb x y)
  | _, _ => true
  end.

(** The trigger function [sync_document_urls()], from [NEW] and [OLD] to
    the row it returns. *)
Definition sync_document_urls (NEW OLD : DocumentRow) : DocumentRow :=
  let NEW :=
    if is_distinct_from (row_url NEW) (row_url OLD)
    then mkRow (row_url NEW) (row_url NEW) (row_other NEW)
    else NEW in
  let NEW :=
    if is_distinct_from (row_file_url NEW) (row_file_url OLD)
    then mkRow (row_file_url NEW) (row_file_url NEW) (row_other NEW)
    else NEW in
  NEW.

(** [UPDATE documents SET url = file_url WHERE url IS NULL], with the
    [BEFORE UPDATE] trigger in place as at the second time the migration
    runs it. *)
Definition backfill_url (table : list DocumentRow) : list DocumentRow :=
  map (fun OLD =>
         match row_url OLD with
         | None =>
             sync_document_urls
               (mkRow (row_file_url OLD) (row_file_url OLD) (row_other OLD)) OLD
         | Some _ => OLD
         end) table.

(** The two columns of a row agree. *)
Definition in_sync (r : DocumentRow) : Prop := row_url r = row_file_url r.

Definition sample_row : DocumentRow :=
  mkRow (Some "https://files/a") (Some "https://files/a") [("name", "A.pdf")].

(** * Properties *)

(** ** The embedding at work *)

Example split_data_url :
  split "," "data:application/pdf;base64,JVBERg=="
  = ["data:application/pdf;base64"; "JVBERg=="].
Proof. reflexivity. Qed.

Example base64_payload_of_empty_body :
  base64_payload "data:application/pdf;base64," = EmptyString.
Proof. reflexivity. Qed.

Example sorted_selection_sample :
  map sd_id (sorted_selection sample_docs) = ["b"; "d"; "a"].
Proof. reflexivity. Qed.

Example sample_requests :
  map (fun ev => match ev with
                 | EvFetchDocument url => url
                 | EvDirectoryLookup _ => "directory"
                 | EvWorkerPost url _ => url
                 end)
      (issued sample_env [] 0%nat (sample_heap sample_docs))
  = ["https://files/b"; "https://files/d"; "https://files/a"; "directory";
     "https://pdf-packet-generator.maxterra-pdf-builder.workers.dev/generate-packet"].
Proof. reflexivity. Qed.

Example classify_connectivity :
  classify sample_env (ThrownError ClsTypeError "Failed to fetch")
  = new_Error (connectivity_message sample_env).
Proof. reflexivity. Qed.

Example classify_non_error :
  classify sample_env ThrownOther = new_Error "Failed to generate PDF packet".
Proof. reflexivity. Qed.

(** ** Strings *)

Lemma prefix_append (p s : string) : String.prefix p (p +:+ s) = true.
Proof.
  induction p as [|c p IH]; simpl.
  - now destruct s.
  - destruct (Ascii.ascii_dec c c) as [_|Hne]; [exact IH | now elim Hne].
Qed.

Lemma prefix_append_l (t s b : string) :
  String.prefix t s = true -> String.prefix t (s +:+ b) = true.
Proof.
  revert s; induction t as [|c t IH]; intros s H.
  - now destruct (s +:+ b).
  - destruct s as [|c' s]; simpl in *; [discriminate|].
    destruct (Ascii.ascii_dec c c'); [now apply IH | discriminate].
Qed.

Lemma includes_prefix (p s : string) : includes (p +:+ s) p = true.
Proof.
  destruct p as [|c p]; simpl.
  - now destruct s.
  - destruct (Ascii.ascii_dec c c) as [_|Hne]; [|now elim Hne].
    now rewrite prefix_append.
Qed.

Lemma includes_unfold (s t : string) :
  includes s t =
  if String.prefix t s then true
  else match s with
       | EmptyString => false
       | String _ s' => includes s' t
       end.
Proof. now destruct s. Qed.

Lemma includes_append_r (a s t : string) :
  includes s t = true -> includes (a +:+ s) t = true.
Proof.
  intros H; induction a as [|c a IH]; [exact H|].
  change (String c a +:+ s) with (String c (a +:+ s)).
  rewrite includes_unfold, IH. now destruct (String.prefix _ _).
Qed.

Lemma includes_append_l (s b t : string) :
  includes s t = true -> includes (s +:+ b) t = true.
Proof.
  induction s as [|c s IH]; intros H; rewrite includes_unfold in H.
  - rewrite includes_unfold.
    destruct (String.prefix t EmptyString) eqn:Hp; [|discriminate].
    now rewrite (prefix_append_l t EmptyString b Hp).
  - change (String c s +:+ b) with (String c (s +:+ b)).
    rewrite includes_unfold.
    destruct (String.prefix t (String c (s +:+ b))) eqn:Hq; [reflexivity|].
    destruct (String.prefix t (String c s)) eqn:Hp.
    + apply prefix_append_l with (b := b) in Hp.
      change (String c s +:+ b) with (String c (s +:+ b)) in Hp. congruence.
    + now apply IH.
Qed.

Lemma includes_middle (a t b : string) : includes (a +:+ t +:+ b) t = true.
Proof. apply includes_append_r, includes_prefix. Qed.

Lemma includes_suffix (a t : string) : includes (a +:+ t) t = true.
Proof.
  apply includes_append_r. rewrite includes_unfold.
  replace (String.prefix t t) with true; [reflexivity|].
  symmetry. induction t as [|c t IH]; simpl; [reflexivity|].
  destruct (Ascii.ascii_dec c c) as [_|Hne]; [exact IH | now elim Hne].
Qed.

(** ** The stable sort *)

Section SortFacts.

Context {A : Type} (cmp : A -> A -> Z).

Lemma insert_sorted_perm (x : A) (l : list A) :
  Permutation (insert_sorted cmp x l) (x :: l).
Proof.
  induction l as [|y l IH]; simpl; [reflexivity|].
  destruct (cmp x y <=? 0)%Z; [reflexivity|].
  rewrite IH. apply perm_swap.
Qed.

Lemma sorted_by_perm (l : list A) : Permutation (sorted_by cmp l) l.
Proof.
  induction l as [|x l IH]; simpl; [reflexivity|].
  rewrite insert_sorted_perm. now constructor.
Qed.

Lemma sorted_by_In (l : list A) (x : A) : In x (sorted_by cmp l) <-> In x l.
Proof.
  split; apply Permutation_in; [|symmetry]; apply sorted_by_perm.
Qed.

Lemma sorted_by_nil (l : list A) : sorted_by cmp l = [] -> l = [].
Proof.
  intros H. apply Permutation_nil. rewrite <- H. apply sorted_by_perm.
Qed.

(** Sorting commutes with a projection the comparator factors through. *)
Lemma insert_sorted_map {B : Type} (f : B -> A) (x : B) (l : list B) :
  map f (insert_sorted (fun a b => cmp (f a) (f b)) x l)
  = insert_sorted cmp (f x) (map f l).
Proof.
  induction l as [|y l IH]; simpl; [reflexivity|].
  destruct (cmp (f x) (f y) <=? 0)%Z; simpl; [reflexivity|].
  now rewrite IH.
Qed.

Lemma sorted_by_map {B : Type} (f : B -> A) (l : list B) :
  map f (sorted_by (fun a b => cmp (f a) (f b)) l) = sorted_by cmp (map f l).
Proof.
  induction l as [|x l IH]; simpl; [reflexivity|].
  now rewrite insert_sorted_map, IH.
Qed.

End SortFacts.

(** ** Sortedness and stability of the sorted selection *)

Section Stable.

Context {B : Type} (key : B -> Z) (tag : B -> nat).

Let by_key (a b : B) : Z := (key a - key b)%Z.

Lemma insert_sorted_key_le (x : B) (l : list B) :
  StronglySorted (key_le key) l -> StronglySorted (key_le key) (insert_sorted by_key x l).
Proof.
  induction l as [|y l IH]; intros Hs; simpl.
  - repeat constructor.
  - apply StronglySorted_inv in Hs as [Hs Hy].
    destruct (by_key x y <=? 0)%Z eqn:Hc; unfold by_key in Hc.
    + apply Z.leb_le in Hc. constructor; [now constructor|].
      constructor; [unfold key_le; lia|].
      rewrite List.Forall_forall in *. intros z Hz.
      pose proof (Hy z Hz). unfold key_le in *. lia.
    + apply Z.leb_gt in Hc. constructor; [now apply IH|].
      rewrite List.Forall_forall in *. intros z Hz.
      apply (Permutation_in _ (insert_sorted_perm by_key x l)) in Hz.
      destruct Hz as [<-|Hz]; [unfold key_le; lia | now apply Hy].
Qed.

Lemma sorted_by_key_le (l : list B) : StronglySorted (key_le key) (sorted_by by_key l).
Proof.
  induction l as [|x l IH]; simpl; [constructor|].
  now apply insert_sorted_key_le.
Qed.

Lemma insert_sorted_lex (x : B) (l : list B) :
  StronglySorted (lex_lt key tag) l ->
  (forall y, In y l -> (tag x < tag y)%nat) ->
  StronglySorted (lex_lt key tag) (insert_sorted by_key x l).
Proof.
  induction l as [|y l IH]; intros Hs Htag; simpl.
  - repeat constructor.
  - apply StronglySorted_inv in Hs as [Hs Hy].
    destruct (by_key x y <=? 0)%Z eqn:Hc; unfold by_key in Hc.
    + apply Z.leb_le in Hc.
      assert (Hxy : lex_lt key tag x y).
      { pose proof (Htag y (or_introl eq_refl)). unfold lex_lt. lia. }
      constructor; [now constructor|].
      constructor; [exact Hxy|].
      rewrite List.Forall_forall in *. intros z Hz.
      pose proof (Hy z Hz) as Hyz. pose proof (Htag z (or_intror Hz)).
      unfold lex_lt in *. lia.
    + apply Z.leb_gt in Hc. constructor.
      * apply IH; [exact Hs|]. intros z Hz. apply Htag. now right.
      * rewrite List.Forall_forall in *. intros z Hz.
        apply (Permutation_in _ (insert_sorted_perm by_key x l)) in Hz.
        destruct Hz as [<-|Hz]; [unfold lex_lt; lia | now apply Hy].
Qed.

(** Stability: a list given in ascending tag order comes out ordered by
    key, and by tag among equal keys. *)
Lemma sorted_by_lex (l : list B) :
  StronglySorted lt (map tag l) -> StronglySorted (lex_lt key tag) (sorted_by by_key l).
Proof.
  induction l as [|x l IH]; simpl; intros Hs; [constructor|].
  apply StronglySorted_inv in Hs as [Hs Hx].
  apply insert_sorted_lex; [now apply IH|].
  intros y Hy. apply sorted_by_In in Hy.
  rewrite List.Forall_forall in Hx. apply Hx. now apply in_map.
Qed.

(** The order is the one of every stable sort: a rearrangement of [l]
    that is ordered by key, and by tag among equal keys, is this one. *)
Lemma sorted_by_lex_unique (l l' : list B) :
  StronglySorted lt (map tag l) ->
  Permutation l' l ->
  StronglySorted (lex_lt key tag) l' ->
  l' = sorted_by by_key l.
Proof.
  intros Htags Hperm Hsorted.
  apply (StronglySorted_unique_strong (lex_lt key tag)).
  - intros x1 x2 _ _ H12 H21. unfold lex_lt in *. lia.
  - exact Hsorted.
  - now apply sorted_by_lex.
  - rewrite Hperm. symmetry. apply sorted_by_perm.
Qed.

End Stable.

(** ** The sorted selection, position by position *)

Lemma In_combine_seq {A} (l : list A) (s i : nat) (x : A) :
  In (i, x) (combine (seq s (length l)) l)
  <-> (s <= i)%nat /\ nth_error l (i - s) = Some x.
Proof.
  revert s; induction l as [|y l IH]; intros s; simpl.
  - split; [tauto|]. intros [_ H]. now destruct (i - s)%nat.
  - rewrite IH. split.
    + intros [H|[Hle H]].
      * inversion H; subst. split; [lia|]. now rewrite Nat.sub_diag.
      * split; [lia|]. replace (i - s)%nat with (S (i - S s)) by lia. exact H.
    + intros [Hle H]. destruct (i - s)%nat as [|k] eqn:Hk.
      * left. simpl in H. inversion H. f_equal. lia.
      * right. split; [lia|]. simpl in H.
        replace (i - S s)%nat with k by lia. exact H.
Qed.

Lemma map_fst_combine_seq {A} (l : list A) (s : nat) :
  map fst (combine (seq s (length l)) l) = seq s (length l).
Proof.
  revert s; induction l as [|y l IH]; intros s; simpl; [reflexivity|].
  now rewrite IH.
Qed.

Lemma map_snd_combine_seq {A} (l : list A) (s : nat) :
  map snd (combine (seq s (length l)) l) = l.
Proof.
  revert s; induction l as [|y l IH]; intros s; simpl; [reflexivity|].
  now rewrite IH.
Qed.

Lemma seq_StronglySorted (s n : nat) : StronglySorted lt (seq s n).
Proof.
  revert s; induction n as [|n IH]; intros s; simpl; constructor; [apply IH|].
  apply List.Forall_forall. intros x Hx. apply in_seq in Hx. lia.
Qed.

Lemma filter_tags_sorted {A} (q : nat * A -> bool) (l : list (nat * A)) :
  StronglySorted lt (map fst l) -> StronglySorted lt (map fst (List.filter q l)).
Proof.
  induction l as [|x l IH]; simpl; intros Hs; [constructor|].
  apply StronglySorted_inv in Hs as [Hs Hx].
  destruct (q x); simpl; [|now apply IH].
  constructor; [now apply IH|].
  rewrite List.Forall_forall in *. intros t Ht. apply Hx.
  apply in_map_iff in Ht as [y [<- Hy]]. apply filter_In in Hy as [Hy _].
  now apply in_map.
Qed.

Lemma map_snd_filter {A} (p : A -> bool) (l : list (nat * A)) :
  map snd (List.filter (fun x => p (snd x)) l) = List.filter p (map snd l).
Proof.
  induction l as [|x l IH]; simpl; [reflexivity|].
  destruct (p (snd x)); simpl; now rewrite IH.
Qed.

Lemma Forall2_fst_snd {A C} (P : A -> C -> Prop) (l : list (A * C)) :
  (forall x, In x l -> P (fst x) (snd x)) -> Forall2 P (map fst l) (map snd l).
Proof.
  induction l as [|x l IH]; simpl; intros H; constructor.
  - apply H. now left.
  - apply IH. intros y Hy. apply H. now right.
Qed.

Lemma StronglySorted_map_In {A C} (R : A -> A -> Prop) (R' : C -> C -> Prop)
    (f : A -> C) (l : list A) :
  (forall x y, In x l -> In y l -> R x y -> R' (f x) (f y)) ->
  StronglySorted R l -> StronglySorted R' (map f l).
Proof.
  induction l as [|x l IH]; simpl; intros H Hs; [constructor|].
  apply StronglySorted_inv in Hs as [Hs Hx]. constructor.
  - apply IH; [|exact Hs]. intros; apply H; auto.
  - rewrite List.Forall_forall in *. intros t Ht.
    apply in_map_iff in Ht as [y [<- Hy]]. apply H; auto.
Qed.

Lemma goes_before_irrefl (docs : list SelectedDocument) (i : nat) :
  ~ goes_before docs i i.
Proof.
  intros (a & b & Ha & Hb & Hlt). rewrite Ha in Hb. inversion Hb; subst. lia.
Qed.

Lemma StronglySorted_NoDup {A} (R : A -> A -> Prop) (l : list A) :
  (forall x, ~ R x x) -> StronglySorted R l -> List.NoDup l.
Proof.
  intros Hirr. induction 1 as [|x l Hs IH Hx]; constructor; [|exact IH].
  intros Hin. rewrite List.Forall_forall in Hx. exact (Hirr x (Hx x Hin)).
Qed.

(** The sorted selection enumerates exactly the selected positions of the
    input, each once, by ascending [order] and, among equal [order]s, by
    ascending input position. *)
Lemma sorted_selection_positions (docs : list SelectedDocument) :
  exists idxs : list nat,
    StronglySorted (goes_before docs) idxs /\
    (forall i, In i idxs <-> selected_at docs i) /\
    Forall2 (fun i d => nth_error docs i = Some d) idxs (sorted_selection docs).
Proof.
  set (T := List.filter (fun x => sd_selected (snd x)) (indexed docs)).
  set (S := sorted_by
              (fun a b : nat * SelectedDocument =>
                 compare_order (snd a) (snd b)) T).
  assert (HT : forall i d, In (i, d) T
                 <-> nth_error docs i = Some d /\ sd_selected d = true).
  { intros i d. unfold T, indexed. rewrite filter_In, In_combine_seq. simpl.
    rewrite Nat.sub_0_r. intuition lia. }
  assert (HS : forall x, In x S <-> In x T) by (intro; apply sorted_by_In).
  assert (Hlex : StronglySorted (lex_lt (fun x => sd_order (snd x)) fst) S).
  { apply (sorted_by_lex (fun x : nat * SelectedDocument => sd_order (snd x)) fst).
    apply filter_tags_sorted. unfold indexed.
    rewrite map_fst_combine_seq. apply seq_StronglySorted. }
  assert (Hsnd : map snd S = sorted_selection docs).
  { unfold S, sorted_selection.
    rewrite (sorted_by_map compare_order snd T). f_equal.
    unfold T. rewrite map_snd_filter. f_equal. apply map_snd_combine_seq. }
  exists (map fst S). split; [|split].
  - eapply StronglySorted_map_In; [|exact Hlex].
    intros [i a] [j b] Hi Hj Hlt. apply HS, HT in Hi, Hj.
    exists a, b. simpl in *. unfold lex_lt in Hlt. simpl in Hlt. tauto.
  - intros i. rewrite in_map_iff. split.
    + intros [[j d] [<- Hx]]. apply HS, HT in Hx. now exists d.
    + intros [d Hd]. exists (i, d). split; [reflexivity|]. now apply HS, HT.
  - rewrite <- Hsnd. apply Forall2_fst_snd.
    intros [i d] Hx. apply HS, HT in Hx. simpl. tauto.
Qed.

(** ** Running the stages *)

Lemma log_nil (w : World) : log w [] = w.
Proof. destruct w; unfold log; simpl. now rewrite app_nil_r. Qed.

Lemma log_log (w : World) (a b : list NetEvent) : log (log w a) b = log w (a ++ b).
Proof. unfold log; simpl. now rewrite app_assoc. Qed.

Ltac run_async :=
  unfold bind, try_catch, await, emit, throw, ret, promise_of; simpl.

Lemma processDocument_run (env : Env) (i : nat) (doc : SelectedDocument) (w : World) :
  processDocument env i doc w
  = (document_outcome env i doc, log w (document_requests doc)).
Proof.
  unfold document_outcome, document_requests, processDocument.
  destruct (doc_url (sd_document doc)) as [[|c u]|]; run_async;
    try (now rewrite log_nil).
  destruct (fetch_document env i (String c u)) as [response| |]; simpl;
    try reflexivity.
  destruct (dr_ok response); simpl; try reflexivity.
  destruct (dr_blob response) as [blob| |]; simpl; try reflexivity.
  destruct (encode blob); reflexivity.
Qed.

Lemma map_async_run (env : Env) (docs : list SelectedDocument) (i : nat) (w : World) :
  map_async (processDocument env) i docs w
  = (Return (document_outcomes env i docs),
     log w (flat_map document_requests docs)).
Proof.
  revert i w; induction docs as [|doc rest IH]; intros i w; simpl.
  - unfold ret. now rewrite log_nil.
  - unfold bind at 1. unfold promise_of. rewrite processDocument_run.
    unfold bind at 1. rewrite IH. unfold ret. now rewrite log_log.
Qed.

(** *** What a document's promise can be *)

Lemma document_outcome_cases (env : Env) (i : nat) (doc : SelectedDocument) :
  document_outcome env i doc = Throw (processing_error doc)
  \/ document_outcome env i doc = Pending
  \/ exists (c : ascii) (u fileData : string),
       doc_url (sd_document doc) = Some (String c u) /\
       is_empty fileData = false /\
       document_outcome env i doc =
         Return {| fd_id := sd_id doc;
                   fd_name := opt_or_else (doc_name (sd_document doc))
                                          "Unnamed Document";
                   fd_url := String c u;
                   fd_type := opt_or_else (doc_type (sd_document doc)) "other";
                   fd_fileData := fileData |}.
Proof.
  unfold document_outcome, processDocument, processing_error.
  destruct (doc_url (sd_document doc)) as [[|c u]|]; run_async; auto.
  destruct (fetch_document env i (String c u)) as [response| |]; simpl; auto.
  destruct (dr_ok response); simpl; auto.
  destruct (dr_blob response) as [blob| |]; simpl; auto.
  unfold encode, readAsDataURL, onloadend, onerror.
  destruct (blob_dataURL blob) as [base64String|]; simpl; auto.
  destruct (is_empty (base64_payload base64String)) eqn:He; simpl; auto.
  right; right. exists c, u, (base64_payload base64String).
  repeat split; auto. unfold or_else. now rewrite He.
Qed.

(** *** [Promise.all] *)

Section PromiseAll.

Context {A : Type} (time : nat -> nat).

Lemma earliest_rejection_In (ps : list (Completion A)) (i t : nat) (e : Thrown) :
  earliest_rejection time i ps = Some (t, e) -> In (Throw e) ps.
Proof.
  revert i t e; induction ps as [|p ps IH]; intros i t e; simpl; [discriminate|].
  destruct p as [a|e0|].
  - intros H. right. eauto.
  - destruct (earliest_rejection time (S i) ps) as [[t' e']|] eqn:Hl.
    + destruct (t' <? time i)%nat; intros H; inversion H; subst; eauto.
    + intros H; inversion H; subst. now left.
  - intros H. right. eauto.
Qed.

Lemma earliest_rejection_Some (ps : list (Completion A)) (i : nat) (e : Thrown) :
  In (Throw e) ps -> exists t e', earliest_rejection time i ps = Some (t, e').
Proof.
  revert i; induction ps as [|p ps IH]; intros i; simpl; [tauto|].
  intros [->|Hin].
  - destruct (earliest_rejection time (S i) ps) as [[t' e']|]; eauto.
    destruct (t' <? time i)%nat; eauto.
  - destruct (IH (S i) Hin) as (t & e' & ->).
    destruct p; eauto. destruct (t <? time i)%nat; eauto.
Qed.

Lemma all_values_Forall2 (ps : list (Completion A)) (vs : list A) :
  all_values ps = Some vs <-> Forall2 (fun p v => p = Return v) ps vs.
Proof.
  revert vs; induction ps as [|p ps IH]; intros vs; simpl.
  - split; [intros H; inversion H; constructor | intros H; now inversion H].
  - split.
    + destruct p as [a| |]; try discriminate.
      destruct (all_values ps) as [vs'|]; simpl; [|discriminate].
      intros H; inversion H; subst. constructor; [reflexivity|]. now apply IH.
    + intros H. inversion H as [|p' v ps' vs' Hp Hrest]; subst.
      apply IH in Hrest. now rewrite Hrest.
Qed.

Lemma Promise_all_Return (ps : list (Completion A)) (vs : list A) :
  Promise_all time ps = Return vs -> Forall2 (fun p v => p = Return v) ps vs.
Proof.
  unfold Promise_all.
  destruct (earliest_rejection time 0 ps) as [[t e]|]; [discriminate|].
  destruct (all_values ps) as [vs'|] eqn:Hv; [|discriminate].
  intros H; inversion H; subst. now apply all_values_Forall2.
Qed.

Lemma Promise_all_Throw (ps : list (Completion A)) (e : Thrown) :
  Promise_all time ps = Throw e -> In (Throw e) ps.
Proof.
  unfold Promise_all.
  destruct (earliest_rejection time 0 ps) as [[t e']|] eqn:He.
  - intros H; inversion H; subst. eapply earliest_rejection_In; eauto.
  - destruct (all_values ps); discriminate.
Qed.

(** One rejected promise rejects the whole, whatever the timing. *)
Lemma Promise_all_rejects (ps : list (Completion A)) (e : Thrown) :
  In (Throw e) ps -> exists e', Promise_all time ps = Throw e' /\ In (Throw e') ps.
Proof.
  intros Hin. destruct (earliest_rejection_Some ps 0 e Hin) as (t & e' & He).
  exists e'. split; [|eapply earliest_rejection_In; eauto].
  unfold Promise_all. now rewrite He.
Qed.

(** When every promise fulfils, the result is the values in array order,
    whatever the timing. *)
Lemma Promise_all_fulfils (ps : list (Completion A)) (vs : list A) :
  Forall2 (fun p v => p = Return v) ps vs -> Promise_all time ps = Return vs.
Proof.
  intros H. unfold Promise_all.
  destruct (earliest_rejection time 0 ps) as [[t e]|] eqn:He.
  - apply earliest_rejection_In in He. exfalso.
    induction H as [|p v ps vs Hp _ IH]; simpl in He; [tauto|].
    destruct He as [He|He]; [congruence | auto].
  - apply all_values_Forall2 in H. now rewrite H.
Qed.

End PromiseAll.

(** *** The call as a whole *)

Lemma document_outcomes_In (env : Env) (docs : list SelectedDocument) (i : nat)
    (c : Completion FetchedDocument) :
  In c (document_outcomes env i docs)
  <-> exists k doc, nth_error docs k = Some doc /\ c = document_outcome env (i + k) doc.
Proof.
  revert i; induction docs as [|d docs IH]; intros i; simpl.
  - split; [tauto|]. intros (k & doc & H & _). now destruct k.
  - rewrite IH. split.
    + intros [<-|(k & doc & H & ->)].
      * exists 0%nat, d. now rewrite Nat.add_0_r.
      * exists (S k), doc. split; [exact H|]. f_equal. lia.
    + intros ([|k] & doc & H & ->); simpl in H.
      * left. inversion H. now rewrite Nat.add_0_r.
      * right. exists k, doc. split; [exact H|]. f_equal. lia.
Qed.

Lemma generatePacket_try_run (env : Env) (formData : FormData) (arr : loc)
    (w : World) (docs : list SelectedDocument) :
  w_heap w !! arr = Some docs ->
  generatePacket_try env formData arr w =
  let w1 := mkWorld (heap_sorted (w_heap w) docs) (w_trace w) in
  match sorted_selection docs with
  | [] => (Throw (new_Error "No documents selected for packet generation"), w1)
  | _ :: _ =>
      let w2 := log w1 (flat_map document_requests (sorted_selection docs)) in
      match Promise_all (completion_time env)
              (document_outcomes env 0 (sorted_selection docs)) with
      | Return documentsWithData =>
          send_packet env formData (sorted_selection docs) documentsWithData w2
      | Throw e => (Throw e, w2)
      | Pending => (Pending, w2)
      end
  end.
Proof.
  intros Harr. unfold generatePacket_try, Array_filter, Array_sort, read_array.
  unfold bind at 1. simpl. unfold bind at 1. simpl. unfold bind at 1. simpl.
  rewrite Harr. simpl. rewrite !lookup_insert_eq. simpl.
  rewrite insert_insert_eq. fold (sorted_selection docs).
  change (<[fresh (dom (w_heap w)) := sorted_selection docs]> (w_heap w))
    with (heap_sorted (w_heap w) docs).
  generalize (heap_sorted (w_heap w) docs) as h1. intros h1.
  destruct (sorted_selection docs) as [|d0 rest] eqn:Hsel; [reflexivity|].
  change (length (d0 :: rest) =? 0)%nat with false. cbv iota.
  unfold bind at 1. rewrite map_async_run.
  unfold bind at 1. unfold await at 1.
  destruct (Promise_all _ _); reflexivity.
Qed.

Lemma lookup_category_documents_run (env : Env) (formData : FormData) (w : World) :
  lookup_category_documents env (productType_of formData) w
  = (directory_result env formData,
     log w [EvDirectoryLookup (productType_of formData)]).
Proof.
  unfold lookup_category_documents, directory_result. run_async.
  destruct (getDocumentsByProductType env (productType_of formData)); reflexivity.
Qed.

Lemma error_detail_run (env : Env) (r : WorkerResponse) (w : World) :
  error_detail env r w = (fst (error_detail env r (mkWorld ∅ [])), w).
Proof.
  unfold error_detail. run_async.
  destruct (wr_json r) as [errorData|e|]; simpl.
  - destruct (get errorData "message"); simpl; [reflexivity|].
    destruct (wr_text r); reflexivity.
  - destruct (wr_text r); reflexivity.
  - reflexivity.
Qed.

Lemma handle_response_run (env : Env) (r : WorkerResponse) (w : World) :
  handle_response env r w = (response_outcome env r, w).
Proof.
  unfold response_outcome, handle_response.
  destruct (wr_ok r); simpl.
  - run_async. destruct (wr_arrayBuffer r) as [buf| |]; simpl; try reflexivity.
    destruct (length buf =? 0)%nat; reflexivity.
  - unfold bind. rewrite (error_detail_run env r w).
    destruct (error_detail env r (mkWorld ∅ [])) as [c w0]. simpl.
    destruct c; reflexivity.
Qed.

Lemma send_packet_run (env : Env) (formData : FormData)
    (sortedDocs : list SelectedDocument) (fetched : list FetchedDocument)
    (w : World) :
  send_packet env formData sortedDocs fetched w =
  let lookup := EvDirectoryLookup (productType_of formData) in
  match directory_result env formData with
  | Return allCategoryDocs =>
      let payload :=
        build_payload env formData sortedDocs fetched allCategoryDocs in
      let w' := log w [lookup; EvWorkerPost (endpoint env) payload] in
      match fetch_worker env (endpoint env) payload with
      | Return workerResponse => (response_outcome env workerResponse, w')
      | Throw e => (Throw e, w')
      | Pending => (Pending, w')
      end
  | Throw e => (Throw e, log w [lookup])
  | Pending => (Pending, log w [lookup])
  end.
Proof.
  unfold send_packet. unfold bind at 1.
  rewrite lookup_category_documents_run.
  destruct (directory_result env formData) as [allCategoryDocs| |]; try reflexivity.
  cbv zeta. unfold bind at 1. unfold emit at 1. cbv iota beta.
  unfold bind at 1. unfold await at 1.
  change (mkWorld (w_heap (log w _)) (w_trace (log w _) ++ _))
    with (log (log w [EvDirectoryLookup (productType_of formData)])
              [EvWorkerPost (endpoint env)
                 (build_payload env formData sortedDocs fetched allCategoryDocs)]).
  rewrite log_log. simpl app.
  destruct (fetch_worker env (endpoint env) _) as [r| |]; try reflexivity.
  apply handle_response_run.
Qed.

(** The directory lookup never makes the call throw. *)
Lemma directory_result_not_Throw (env : Env) (formData : FormData) (e : Thrown) :
  directory_result env formData <> Throw e.
Proof.
  unfold directory_result.
  destruct (getDocumentsByProductType env (productType_of formData)); discriminate.
Qed.

Lemma generatePacket_run (env : Env) (formData : FormData) (arr : loc)
    (h : gmap nat (list SelectedDocument)) (docs : list SelectedDocument) :
  h !! arr = Some docs ->
  generatePacket env formData arr (mkWorld h []) =
  let sel := sorted_selection docs in
  let hs := heap_sorted h docs in
  let reqs := flat_map document_requests sel in
  let lookup := EvDirectoryLookup (productType_of formData) in
  match sel with
  | [] =>
      (Throw (classify env
                (new_Error "No documents selected for packet generation")),
       mkWorld hs [])
  | _ :: _ =>
      match Promise_all (completion_time env) (document_outcomes env 0 sel) with
      | Return fetched =>
          match directory_result env formData with
          | Return allCategoryDocs =>
              let payload :=
                build_payload env formData sel fetched allCategoryDocs in
              let tr := reqs ++ [lookup; EvWorkerPost (endpoint env) payload] in
              match fetch_worker env (endpoint env) payload with
              | Return r => (rethrown env (response_outcome env r), mkWorld hs tr)
              | Throw e => (Throw (classify env e), mkWorld hs tr)
              | Pending => (Pending, mkWorld hs tr)
              end
          | Throw e => (Throw (classify env e), mkWorld hs (reqs ++ [lookup]))
          | Pending => (Pending, mkWorld hs (reqs ++ [lookup]))
          end
      | Throw e => (Throw (classify env e), mkWorld hs reqs)
      | Pending => (Pending, mkWorld hs reqs)
      end
  end.
Proof.
  intros Harr. unfold generatePacket, try_catch.
  rewrite (generatePacket_try_run env formData arr (mkWorld h []) docs Harr).
  cbv zeta. simpl w_heap. simpl w_trace.
  destruct (sorted_selection docs) as [|d0 rest] eqn:Hsel; [reflexivity|].
  rewrite <- Hsel.
  destruct (Promise_all _ _) as [fetched|e|]; try reflexivity.
  rewrite send_packet_run. cbv zeta.
  destruct (directory_result env formData) as [allCategoryDocs|e|]; try reflexivity.
  destruct (fetch_worker env (endpoint env) _) as [r|e|]; try reflexivity.
  unfold rethrown. destruct (response_outcome env r); reflexivity.
Qed.

(** ** Empty selection *)

Lemma filter_none {A} (p : A -> bool) (l : list A) :
  (forall x, In x l -> p x = false) -> List.filter p l = [].
Proof.
  induction l as [|x l IH]; simpl; intros H; [reflexivity|].
  rewrite (H x (or_introl eq_refl)). apply IH. intros y Hy. apply H. now right.
Qed.

(** C3. When no entry of the selection has [selected = true], the call
    fails with the no-documents-selected error and has issued no network
    request at all: no document fetch, no directory lookup, no request to
    the rendering service. *)
Theorem C3_empty_selection_fails_before_network
    (env : Env) (formData : FormData) (arr : loc)
    (h : gmap nat (list SelectedDocument)) (docs : list SelectedDocument) :
  h !! arr = Some docs ->
  (forall d, In d docs -> sd_selected d = false) ->
  outcome env formData arr h = Throw no_documents_error
  /\ issued env formData arr h = [].
Proof.
  intros Harr Hnone. unfold outcome, issued.
  rewrite (generatePacket_run env formData arr h docs Harr). cbv zeta.
  unfold sorted_selection. rewrite (filter_none _ _ Hnone). simpl.
  split; reflexivity.
Qed.

Lemma C3_witness :
  outcome sample_env [] 0%nat
    (sample_heap [sample_doc "c" "C.pdf" "https://files/c" false 0])
  = Throw no_documents_error
  /\ issued sample_env [] 0%nat
       (sample_heap [sample_doc "c" "C.pdf" "https://files/c" false 0]) = [].
Proof.
  apply (C3_empty_selection_fails_before_network sample_env [] 0%nat
           (sample_heap [sample_doc "c" "C.pdf" "https://files/c" false 0])
           [sample_doc "c" "C.pdf" "https://files/c" false 0]).
  - reflexivity.
  - intros d [<-|[]]. reflexivity.
Defined.

(** ** The caller's array *)

Lemma heap_after_eq (env : Env) (formData : FormData) (arr : loc)
    (h : gmap nat (list SelectedDocument)) (docs : list SelectedDocument) :
  h !! arr = Some docs -> heap_after env formData arr h = heap_sorted h docs.
Proof.
  intros Harr. unfold heap_after.
  rewrite (generatePacket_run env formData arr h docs Harr). cbv zeta.
  destruct (sorted_selection docs); [reflexivity|].
  destruct (Promise_all _ _); try reflexivity.
  destruct (directory_result env formData); try reflexivity.
  destruct (fetch_worker env (endpoint env) _); reflexivity.
Qed.

Lemma heap_sorted_lookup (h : gmap nat (list SelectedDocument))
    (docs elems : list SelectedDocument) (l : loc) :
  h !! l = Some elems -> heap_sorted h docs !! l = Some elems.
Proof.
  intros Hl. unfold heap_sorted. rewrite lookup_insert_ne; [exact Hl|].
  intros Heq. pose proof (is_fresh (dom h)) as Hfresh.
  apply Hfresh. rewrite Heq. apply elem_of_dom. eauto.
Qed.

(** C10. The call leaves the caller's [selectedDocuments] array as it
    was, same elements in the same order, and likewise every other array
    that existed before the call: [filter] allocates a new array and
    [sort] works in place on that one. *)
Theorem C10_input_array_not_mutated
    (env : Env) (formData : FormData) (arr : loc)
    (h : gmap nat (list SelectedDocument)) (docs : list SelectedDocument) :
  h !! arr = Some docs ->
  heap_after env formData arr h !! arr = Some docs
  /\ (forall l elems, h !! l = Some elems ->
        heap_after env formData arr h !! l = Some elems)
  /\ heap_after env formData arr h !! fresh (dom h)
     = Some (sorted_selection docs).
Proof.
  intros Harr. rewrite (heap_after_eq env formData arr h docs Harr).
  split; [|split; [intros l elems|]]; try now apply heap_sorted_lookup.
  unfold heap_sorted. apply lookup_insert_eq.
Qed.

Lemma C10_witness :
  heap_after sample_env [] 0%nat (sample_heap sample_docs) !! 0%nat
  = Some sample_docs
  /\ (forall l elems, sample_heap sample_docs !! l = Some elems ->
        heap_after sample_env [] 0%nat (sample_heap sample_docs) !! l = Some elems)
  /\ heap_after sample_env [] 0%nat (sample_heap sample_docs)
       !! fresh (dom (sample_heap sample_docs))
     = Some (sorted_selection sample_docs).
Proof.
  apply (C10_input_array_not_mutated sample_env [] 0%nat
           (sample_heap sample_docs) sample_docs).
  reflexivity.
Defined.

(** ** The request that is sent *)

Lemma document_requests_fetch_only (sel : list SelectedDocument) (ev : NetEvent) :
  In ev (flat_map document_requests sel) -> exists url, ev = EvFetchDocument url.
Proof.
  rewrite in_flat_map. intros (doc & _ & Hev). unfold document_requests in Hev.
  destruct (doc_url (sd_document doc)) as [[|c u]|]; simpl in Hev; try tauto.
  destruct Hev as [<-|[]]. eauto.
Qed.

(** A request to the rendering service is sent only after every document
    was processed, and carries the payload built from their results. *)
Lemma issued_post_inv (env : Env) (formData : FormData) (arr : loc)
    (h : gmap nat (list SelectedDocument)) (docs : list SelectedDocument)
    (u : string) (p : Payload) :
  h !! arr = Some docs ->
  In (EvWorkerPost u p) (issued env formData arr h) ->
  exists fetched allCategoryDocs,
    Promise_all (completion_time env)
      (document_outcomes env 0 (sorted_selection docs)) = Return fetched
    /\ directory_result env formData = Return allCategoryDocs
    /\ u = endpoint env
    /\ p = build_payload env formData (sorted_selection docs) fetched
             allCategoryDocs.
Proof.
  intros Harr. unfold issued.
  rewrite (generatePacket_run env formData arr h docs Harr). cbv zeta.
  assert (Hno : ~ In (EvWorkerPost u p)
                  (flat_map document_requests (sorted_selection docs))).
  { intros Hin. apply document_requests_fetch_only in Hin as [url Hurl].
    discriminate. }
  set (reqs := flat_map document_requests (sorted_selection docs)) in *.
  clearbody reqs.
  destruct (sorted_selection docs) as [|d0 rest] eqn:Hsel; [intros []|].
  rewrite <- Hsel.
  destruct (Promise_all _ _) as [fetched|e|]; simpl; try tauto.
  destruct (directory_result env formData) as [allCategoryDocs|e|] eqn:Hdir; simpl.
  - assert (Hin : In (EvWorkerPost u p)
               (reqs ++ [EvDirectoryLookup (productType_of formData);
                         EvWorkerPost (endpoint env)
                           (build_payload env formData (sorted_selection docs)
                              fetched allCategoryDocs)]) ->
             u = endpoint env
             /\ p = build_payload env formData (sorted_selection docs) fetched
                      allCategoryDocs).
    { rewrite in_app_iff. intros [Hin|[Hin|[Hin|[]]]].
      - tauto.
      - discriminate.
      - inversion Hin. auto. }
    destruct (fetch_worker env (endpoint env) _); simpl; intros Hp;
      exists fetched, allCategoryDocs; repeat split; apply Hin in Hp; tauto.
  - rewrite in_app_iff. intros [Hin|[Hin|[]]]; [tauto|discriminate].
  - rewrite in_app_iff. intros [Hin|[Hin|[]]]; [tauto|discriminate].
Qed.

Lemma document_outcome_Return (env : Env) (i : nat) (doc : SelectedDocument)
    (fdoc : FetchedDocument) :
  document_outcome env i doc = Return fdoc -> fetched_from doc fdoc.
Proof.
  intros H.
  destruct (document_outcome_cases env i doc) as [Hc|[Hc|(c & u & data & Hu & He & Hc)]];
    rewrite Hc in H; try discriminate.
  inversion H; subst. unfold fetched_from; simpl.
  repeat split; auto. intros ->. discriminate.
Qed.

Lemma document_outcomes_Return (env : Env) (sel : list SelectedDocument) (i : nat)
    (fetched : list FetchedDocument) :
  Forall2 (fun p v => p = Return v) (document_outcomes env i sel) fetched ->
  Forall2 fetched_from sel fetched.
Proof.
  revert i fetched; induction sel as [|doc sel IH]; intros i fetched H;
    simpl in H; inversion H; subst; constructor.
  - eapply document_outcome_Return; eauto.
  - eapply IH; eauto.
Qed.

Lemma Forall2_compose {A B C} (P : A -> B -> Prop) (Q : B -> C -> Prop)
    (la : list A) (lb : list B) (lc : list C) :
  Forall2 P la lb -> Forall2 Q lb lc ->
  Forall2 (fun a c => exists b, P a b /\ Q b c) la lc.
Proof.
  intros H; revert lc; induction H; intros lc HQ; inversion HQ; subst;
    constructor; eauto.
Qed.

Lemma Forall2_map_r {A B C} (P : A -> C -> Prop) (f : B -> C)
    (la : list A) (lb : list B) :
  Forall2 (fun a b => P a (f b)) la lb -> Forall2 P la (map f lb).
Proof. induction 1; simpl; constructor; auto. Qed.

(** C9. In every request sent to the rendering service, every element of
    [documents] has a non-empty [fileData]: the [|| ''] fallback never
    yields an empty string in a request that is built. *)
Theorem C9_sent_fileData_nonempty
    (env : Env) (formData : FormData) (arr : loc)
    (h : gmap nat (list SelectedDocument)) (docs : list SelectedDocument)
    (u : string) (p : Payload) :
  h !! arr = Some docs ->
  In (EvWorkerPost u p) (issued env formData arr h) ->
  Forall (fun fdoc => fd_fileData fdoc <> EmptyString) (documents p).
Proof.
  intros Harr Hin.
  destruct (issued_post_inv env formData arr h docs u p Harr Hin)
    as (fetched & dirdocs & Hall & _ & _ & ->). simpl.
  apply Promise_all_Return, document_outcomes_Return in Hall.
  clear -Hall. induction Hall as [|d f sel fs Hf _ IH]; constructor; auto.
  apply Hf.
Qed.

Lemma sample_request_sent :
  In (EvWorkerPost (endpoint sample_env) sample_payload)
     (issued sample_env [] 0%nat (sample_heap sample_docs)).
Proof. vm_compute. do 4 right. left. reflexivity. Qed.

Lemma C9_witness :
  Forall (fun fdoc => fd_fileData fdoc <> EmptyString) (documents sample_payload).
Proof.
  apply (C9_sent_fileData_nonempty sample_env [] 0%nat
           (sample_heap sample_docs) sample_docs
           (endpoint sample_env) sample_payload).
  - reflexivity.
  - vm_compute. do 4 right. left. reflexivity.
Defined.

(** ** Order of the request's documents *)

Lemma filter_Permutation_bool {A} (p : A -> bool) (l l' : list A) :
  Permutation l l' -> Permutation (List.filter p l) (List.filter p l').
Proof.
  induction 1 as [|x l l' _ IH|x y l|l l' l'' _ IH1 _ IH2]; simpl.
  - constructor.
  - destruct (p x); [now constructor | exact IH].
  - destruct (p x), (p y); try reflexivity. apply perm_swap.
  - now transitivity (List.filter p l').
Qed.

Lemma NoDup_map_eq {A B} (f : A -> B) (l : list A) (x y : A) :
  List.NoDup (map f l) -> In x l -> In y l -> f x = f y -> x = y.
Proof.
  induction l as [|a l IH]; simpl; [tauto|].
  intros Hnd. apply NoDup_cons_iff in Hnd as [Ha Hnd].
  intros [->|Hx] [->|Hy] Hf; auto.
  - elim Ha. rewrite Hf. now apply in_map.
  - elim Ha. rewrite <- Hf. now apply in_map.
Qed.

(** With pairwise distinct [order]s among the selected entries, the
    sorted selection does not depend on where the entries stand in the
    input array. *)
Lemma sorted_selection_Permutation (docs docs' : list SelectedDocument) :
  Permutation docs docs' ->
  List.NoDup (map sd_order (List.filter sd_selected docs)) ->
  sorted_selection docs' = sorted_selection docs.
Proof.
  intros Hperm Hnd. unfold sorted_selection.
  pose proof (filter_Permutation_bool sd_selected _ _ Hperm) as Hf.
  apply (StronglySorted_unique_strong (key_le sd_order)).
  - intros x1 x2 H1 H2 Hle1 Hle2. unfold key_le in *.
    apply list_elem_of_In, sorted_by_In in H1, H2.
    apply (NoDup_map_eq sd_order (List.filter sd_selected docs)); auto.
    + eapply Permutation_in; [symmetry; exact Hf | exact H1].
    + lia.
  - apply (sorted_by_key_le sd_order).
  - apply (sorted_by_key_le sd_order).
  - rewrite !sorted_by_perm. now symmetry.
Qed.

Lemma call_determined_by_selection (env : Env) (formData : FormData)
    (arr arr' : loc) (h h' : gmap nat (list SelectedDocument))
    (docs docs' : list SelectedDocument) :
  h !! arr = Some docs -> h' !! arr' = Some docs' ->
  sorted_selection docs' = sorted_selection docs ->
  outcome env formData arr' h' = outcome env formData arr h
  /\ issued env formData arr' h' = issued env formData arr h.
Proof.
  intros Harr Harr' Hsel. unfold outcome, issued.
  rewrite (generatePacket_run env formData arr h docs Harr).
  rewrite (generatePacket_run env formData arr' h' docs' Harr').
  cbv zeta. rewrite Hsel.
  destruct (sorted_selection docs); [split; reflexivity|].
  destruct (Promise_all _ _); try (split; reflexivity).
  destruct (directory_result env formData); try (split; reflexivity).
  destruct (fetch_worker env (endpoint env) _); split; reflexivity.
Qed.

(** C1. In any request the call sends, [documents] and
    [selectedDocumentNames] list exactly the input positions holding a
    selected entry, each once, by ascending [order] and, for equal
    [order]s, by ascending input position; this holds for every timing of
    the fetches.  When the selected entries have pairwise distinct
    [order]s, permuting the input array changes nothing of what the call
    requests or returns. *)
Theorem C1_documents_in_ascending_order
    (env : Env) (formData : FormData) (arr : loc)
    (h : gmap nat (list SelectedDocument)) (docs : list SelectedDocument) :
  h !! arr = Some docs ->
  (forall u p, In (EvWorkerPost u p) (issued env formData arr h) ->
     exists idxs : list nat,
       StronglySorted (goes_before docs) idxs
       /\ List.NoDup idxs
       /\ (forall i, In i idxs <-> selected_at docs i)
       /\ Forall2 (fun i fdoc => exists d, nth_error docs i = Some d
                                           /\ fetched_from d fdoc)
            idxs (documents p)
       /\ Forall2 (fun i name => exists d, nth_error docs i = Some d
                                           /\ name_from d name)
            idxs (selectedDocumentNames p))
  /\ (forall arr' h' docs',
        h' !! arr' = Some docs' ->
        Permutation docs docs' ->
        List.NoDup (map sd_order (List.filter sd_selected docs)) ->
        outcome env formData arr' h' = outcome env formData arr h
        /\ issued env formData arr' h' = issued env formData arr h).
Proof.
  intros Harr. split.
  - intros u p Hin.
    destruct (issued_post_inv env formData arr h docs u p Harr Hin)
      as (fetched & dirdocs & Hall & _ & _ & ->). simpl.
    apply Promise_all_Return, document_outcomes_Return in Hall.
    destruct (sorted_selection_positions docs) as (idxs & Hsorted & Hsel & Hpos).
    exists idxs. repeat split; try apply Hsel; auto.
    + eapply StronglySorted_NoDup; [apply goes_before_irrefl | exact Hsorted].
    + apply (Forall2_compose _ _ _ _ _ Hpos Hall).
    + unfold names_of. apply Forall2_map_r.
      eapply Forall2_impl; [exact Hpos|].
      intros i d Hd. exists d. split; [exact Hd | reflexivity].
  - intros arr' h' docs' Harr' Hperm Hnd.
    apply (call_determined_by_selection env formData arr arr' h h' docs docs');
      auto using sorted_selection_Permutation.
Qed.

Lemma C1_witness :
  exists idxs : list nat,
    StronglySorted (goes_before sample_docs) idxs
    /\ List.NoDup idxs
    /\ (forall i, In i idxs <-> selected_at sample_docs i)
    /\ Forall2 (fun i fdoc => exists d, nth_error sample_docs i = Some d
                                        /\ fetched_from d fdoc)
         idxs (documents sample_payload)
    /\ Forall2 (fun i name => exists d, nth_error sample_docs i = Some d
                                        /\ name_from d name)
         idxs (selectedDocumentNames sample_payload).
Proof.
  destruct (C1_documents_in_ascending_order sample_env [] 0%nat
              (sample_heap sample_docs) sample_docs) as [Hsent _].
  - reflexivity.
  - apply (Hsent (endpoint sample_env) sample_payload).
    vm_compute. do 4 right. left. reflexivity.
Defined.

(** The two entries of [order] 1 keep their input order, ahead of the
    entry of [order] 2 that stands first in the input. *)
Example sample_names_in_order :
  selectedDocumentNames sample_payload = ["B.pdf"; "D.pdf"; "A.pdf"].
Proof. reflexivity. Qed.

(** ** Defaults of the project data *)

Lemma js_or_defined (a d : jsval) : is_defined d -> is_defined (js_or a d).
Proof. unfold js_or, is_defined. destruct a; simpl; try discriminate; auto.
  all: match goal with |- context [if ?b then _ else _] => destruct b end;
    auto; discriminate. Qed.

Lemma js_nullish_or_defined (a d : jsval) :
  is_defined d -> is_defined (js_nullish_or a d).
Proof. unfold js_nullish_or, is_defined. destruct a; simpl; auto; discriminate. Qed.

Lemma js_or_default (a d : jsval) : defaulted a d (js_or a d).
Proof. intros ->. reflexivity. Qed.

Lemma js_nullish_or_default (a d : jsval) : defaulted a d (js_nullish_or a d).
Proof. intros ->. reflexivity. Qed.

Lemma build_projectData_defined (env : Env) (formData : FormData) :
  all_defined (build_projectData env formData).
Proof.
  unfold all_defined, build_projectData, productType_of; simpl.
  repeat constructor;
    first [apply js_or_defined | apply js_nullish_or_defined]; discriminate.
Qed.

Lemma build_projectData_defaults (env : Env) (formData : FormData) :
  defaults_applied env formData (build_projectData env formData).
Proof.
  unfold defaults_applied, build_projectData, productType_of; simpl.
  repeat constructor; simpl;
    first [apply js_or_default | apply js_nullish_or_default].
Qed.

(** C2. In any request the call sends, every field of [projectData] is
    defined, and each field absent from the input carries its documented
    default: the project name, the five "N/A" fields, the current
    long-form date, the product, the product type, [false] for every
    status and submittal flag, the empty [otherText]. *)
Theorem C2_projectData_fully_defaulted
    (env : Env) (formData : FormData) (arr : loc)
    (h : gmap nat (list SelectedDocument)) (docs : list SelectedDocument)
    (u : string) (p : Payload) :
  h !! arr = Some docs ->
  In (EvWorkerPost u p) (issued env formData arr h) ->
  projectData p = build_projectData env formData
  /\ all_defined (projectData p)
  /\ defaults_applied env formData (projectData p).
Proof.
  intros Harr Hin.
  destruct (issued_post_inv env formData arr h docs u p Harr Hin)
    as (fetched & dirdocs & _ & _ & _ & ->). simpl.
  split; [reflexivity|].
  split; [apply build_projectData_defined | apply build_projectData_defaults].
Qed.

Lemma C2_witness :
  projectData sample_payload = build_projectData sample_env []
  /\ all_defined (projectData sample_payload)
  /\ defaults_applied sample_env [] (projectData sample_payload).
Proof.
  apply (C2_projectData_fully_defaulted sample_env [] 0%nat
           (sample_heap sample_docs) sample_docs
           (endpoint sample_env) sample_payload).
  - reflexivity.
  - vm_compute. do 4 right. left. reflexivity.
Defined.

(** ** Failing documents *)

Lemma DocumentFails_outcome (env : Env) (i : nat) (doc : SelectedDocument) :
  DocumentFails env i doc ->
  document_outcome env i doc = Throw (processing_error doc).
Proof.
  unfold document_outcome, processDocument, processing_error.
  intros [[Hu|Hu]|url e Hu Hf|url r Hu Hf Hok|url r e Hu Hf Hok Hb
          |url r blob Hu Hf Hok Hb Hr|url r blob s Hu Hf Hok Hb Hr He];
    rewrite Hu; try reflexivity;
    (destruct url as [|c u]; [reflexivity|]); run_async; rewrite Hf; simpl;
    try reflexivity; rewrite Hok; simpl; try reflexivity; rewrite Hb; simpl;
    try reflexivity; unfold encode, readAsDataURL; rewrite Hr; simpl;
    try reflexivity.
  unfold onloadend. rewrite He. reflexivity.
Qed.

Lemma classify_processing_error (env : Env) (doc : SelectedDocument) :
  classify env (processing_error doc) = new_Error documents_message.
Proof.
  unfold classify, processing_error, new_Error. cbn [instanceof_TypeError andb].
  cbn [instanceof_Error message andb].
  change ("Failed to process document: "
          +:+ template_opt (doc_name (sd_document doc)))
    with ("Failed to process document"
          +:+ (": " +:+ template_opt (doc_name (sd_document doc)))).
  now rewrite includes_prefix.
Qed.

(** A rejected document promise fails the call with the document-loading
    message, after the fetches and before anything else is requested. *)
Lemma rejected_document_fails_call (env : Env) (formData : FormData) (arr : loc)
    (h : gmap nat (list SelectedDocument)) (docs : list SelectedDocument)
    (i : nat) (doc : SelectedDocument) (e : Thrown) :
  h !! arr = Some docs ->
  nth_error (sorted_selection docs) i = Some doc ->
  document_outcome env i doc = Throw e ->
  outcome env formData arr h = Throw (new_Error documents_message)
  /\ issued env formData arr h
     = flat_map document_requests (sorted_selection docs).
Proof.
  intros Harr Hnth Hout. unfold outcome, issued.
  rewrite (generatePacket_run env formData arr h docs Harr). cbv zeta.
  assert (Hin : In (Throw e) (document_outcomes env 0 (sorted_selection docs))).
  { apply document_outcomes_In. exists i, doc. split; [exact Hnth|].
    now rewrite Nat.add_0_l. }
  destruct (Promise_all_rejects (completion_time env) _ e Hin) as (e' & Hall & Hin').
  apply document_outcomes_In in Hin' as (k & d' & _ & Hd').
  assert (He' : e' = processing_error d').
  { destruct (document_outcome_cases env (0 + k) d')
      as [Hc|[Hc|(c & u & data & _ & _ & Hc)]]; congruence. }
  destruct (sorted_selection docs) as [|d0 rest] eqn:Hsel;
    [now destruct i|].
  rewrite <- Hsel in Hall |- *.
  rewrite Hall, He', classify_processing_error. split; reflexivity.
Qed.

(** C4, as stated, fails: the only selected document has no url, and the
    error the call fails with does not name it. *)
Lemma C4_counterexample :
  nth_error (sorted_selection [zeta]) 0 = Some zeta
  /\ DocumentFails sample_env 0 zeta
  /\ ~ (exists e, outcome sample_env [] 0%nat (sample_heap [zeta]) = Throw e
                  /\ names_document e zeta).
Proof.
  split; [reflexivity|]. split; [apply FailsNoUrl; now left|].
  intros (e & He & Hname).
  assert (Hout : outcome sample_env [] 0%nat (sample_heap [zeta])
                 = Throw (new_Error documents_message)) by reflexivity.
  rewrite Hout in He. inversion He; subst e.
  vm_compute in Hname. discriminate.
Qed.

(** C4, amended. When the processing of some selected document fails
    (missing url, rejected fetch, non-ok status, unreadable body, failed
    read, empty encoding), the promise of that document rejects with an
    error naming it, the call fails with the fixed document-loading
    message, and the document fetches are all that was requested: no
    directory lookup and no request to the rendering service. *)
Theorem C4_failing_document_fails_call
    (env : Env) (formData : FormData) (arr : loc)
    (h : gmap nat (list SelectedDocument)) (docs : list SelectedDocument)
    (i : nat) (doc : SelectedDocument) :
  h !! arr = Some docs ->
  nth_error (sorted_selection docs) i = Some doc ->
  DocumentFails env i doc ->
  document_outcome env i doc = Throw (processing_error doc)
  /\ names_document (processing_error doc) doc
  /\ outcome env formData arr h = Throw (new_Error documents_message)
  /\ (forall u p, ~ In (EvWorkerPost u p) (issued env formData arr h))
  /\ (forall pt, ~ In (EvDirectoryLookup pt) (issued env formData arr h)).
Proof.
  intros Harr Hnth Hfail.
  pose proof (DocumentFails_outcome env i doc Hfail) as Hout.
  destruct (rejected_document_fails_call env formData arr h docs i doc _
              Harr Hnth Hout) as [Hres Hiss].
  split; [exact Hout|]. split; [apply includes_suffix|]. split; [exact Hres|].
  rewrite Hiss. split; intros; intros Hin;
    apply document_requests_fetch_only in Hin as [url Hurl]; discriminate.
Qed.

Lemma C4_witness :
  document_outcome sample_env 0 zeta = Throw (processing_error zeta)
  /\ names_document (processing_error zeta) zeta
  /\ outcome sample_env [] 0%nat (sample_heap [zeta])
     = Throw (new_Error documents_message)
  /\ (forall u p,
        ~ In (EvWorkerPost u p) (issued sample_env [] 0%nat (sample_heap [zeta])))
  /\ (forall pt,
        ~ In (EvDirectoryLookup pt)
            (issued sample_env [] 0%nat (sample_heap [zeta]))).
Proof.
  apply (C4_failing_document_fails_call sample_env [] 0%nat
           (sample_heap [zeta]) [zeta] 0%nat zeta).
  - reflexivity.
  - reflexivity.
  - apply FailsNoUrl. left. reflexivity.
Defined.

(** ** Empty encoding *)

Lemma split_no_separator (c : ascii) (s : string) :
  has_char c s = false -> split c s = [s].
Proof.
  induction s as [|c' s IH]; simpl; [reflexivity|].
  intros H. apply orb_false_iff in H as [Hc Hs].
  now rewrite Hc, (IH Hs).
Qed.

Lemma split_at_separator (c : ascii) (prefix rest : string) :
  has_char c prefix = false ->
  split c (prefix +:+ String c rest) = prefix :: split c rest.
Proof.
  induction prefix as [|c' prefix IH]; simpl; intros H.
  - now rewrite Ascii.eqb_refl.
  - apply orb_false_iff in H as [Hc Hs]. now rewrite Hc, (IH Hs).
Qed.

(** C8, as stated, fails, in two ways.  For an empty body with the usual
    data URL, the processing of the document does not fail with the
    encoding error: the callback's [catch] replaces it.  For an empty body
    whose media type has a comma in it, the payload of the data URL is
    empty all the same, and yet nothing fails: the text between the first
    two commas is taken for the encoding, and the call returns. *)
Lemma C8_counterexample :
  (blob_dataURL (pdf_blob EmptyString) = Some "data:application/pdf;base64,"
   /\ data_url_payload "data:application/pdf;base64," = EmptyString
   /\ document_outcome empty_body_env 0
        (sample_doc "a" "A.pdf" "https://files/a" true 2)
      <> Throw encoding_error)
  /\ (blob_dataURL comma_blob = Some comma_data_url
      /\ data_url_payload comma_data_url = EmptyString
      /\ document_outcome comma_env 0
           (sample_doc "a" "A.pdf" "https://files/a" true 2)
         <> Throw encoding_error
      /\ outcome comma_env [] 0%nat
           (sample_heap [sample_doc "a" "A.pdf" "https://files/a" true 2])
         = Return [Byte.x25; Byte.x50]).
Proof.
  split; [|split; [|split; [|split]]]; try reflexivity.
  - split; [reflexivity|]. split; [reflexivity|]. vm_compute. discriminate.
  - vm_compute. discriminate.
Qed.

(** What is sent for the empty body whose media type has a comma. *)
Example comma_blob_fileData :
  base64_payload comma_data_url = "b" +:+ double_quote +:+ ";base64".
Proof. reflexivity. Qed.

(** C8, amended. When the data URL read for a selected document is a
    prefix without comma followed by a comma and nothing more, the handler
    calls [reject] and then [resolve], and the promise stays rejected with
    the encoding error; the processing of the document then fails with the
    error ["Failed to process document: <name>"] that its [catch] puts in
    place of the encoding error, and so does, with the document-loading
    message, every call that has the document at that place of its sorted
    selection. *)
Theorem C8_empty_encoding_rejects
    (env : Env) (i : nat) (doc : SelectedDocument) (c : ascii) (u : string)
    (response : DocResponse) (blob : Blob) (prefix : string) :
  doc_url (sd_document doc) = Some (String c u) ->
  fetch_document env i (String c u) = Return response ->
  dr_ok response = true ->
  dr_blob response = Return blob ->
  blob_dataURL blob = Some (prefix +:+ ",") ->
  has_char "," prefix = false ->
  readAsDataURL blob None = resolve EmptyString (reject encoding_error None)
  /\ encode blob = Throw encoding_error
  /\ document_outcome env i doc = Throw (processing_error doc)
  /\ forall formData arr h docs,
       h !! arr = Some docs ->
       nth_error (sorted_selection docs) i = Some doc ->
       outcome env formData arr h = Throw (new_Error documents_message).
Proof.
  intros Hu Hf Hok Hb Hr Hp.
  assert (He : base64_payload (prefix +:+ ",") = EmptyString).
  { unfold base64_payload.
    change (prefix +:+ ",") with (prefix +:+ String "," EmptyString).
    now rewrite (split_at_separator "," prefix _ Hp). }
  assert (Hread : readAsDataURL blob None
                  = resolve EmptyString (reject encoding_error None)).
  { unfold readAsDataURL, onloadend. rewrite Hr, He. reflexivity. }
  assert (Hout : document_outcome env i doc = Throw (processing_error doc)).
  { apply DocumentFails_outcome. eapply FailsEncode; eauto. }
  split; [exact Hread|]. split; [unfold encode; now rewrite Hread|].
  split; [exact Hout|].
  intros formData arr h docs Harr Hnth.
  now destruct (rejected_document_fails_call env formData arr h docs i doc _
                  Harr Hnth Hout).
Qed.

Lemma C8_witness :
  readAsDataURL (pdf_blob EmptyString) None
  = resolve EmptyString (reject encoding_error None)
  /\ encode (pdf_blob EmptyString) = Throw encoding_error
  /\ document_outcome empty_body_env 0
       (sample_doc "a" "A.pdf" "https://files/a" true 2)
     = Throw (processing_error (sample_doc "a" "A.pdf" "https://files/a" true 2))
  /\ forall formData arr h docs,
       h !! arr = Some docs ->
       nth_error (sorted_selection docs) 0
       = Some (sample_doc "a" "A.pdf" "https://files/a" true 2) ->
       outcome empty_body_env formData arr h = Throw (new_Error documents_message).
Proof.
  apply (C8_empty_encoding_rejects empty_body_env 0
           (sample_doc "a" "A.pdf" "https://files/a" true 2)
           "h"%char "ttps://files/a"
           (mkDocResponse true 200 "OK" (Return (pdf_blob EmptyString)))
           (pdf_blob EmptyString) "data:application/pdf;base64");
    reflexivity.
Defined.

(** ** The answer of the rendering service *)

Lemma request_built_run (env : Env) (formData : FormData) (arr : loc)
    (h : gmap nat (list SelectedDocument)) (docs : list SelectedDocument)
    (payload : Payload) :
  h !! arr = Some docs ->
  request_built env formData docs payload ->
  outcome env formData arr h
  = match fetch_worker env (endpoint env) payload with
    | Return r => rethrown env (response_outcome env r)
    | Throw e => Throw (classify env e)
    | Pending => Pending
    end
  /\ issued env formData arr h
     = flat_map document_requests (sorted_selection docs)
       ++ [EvDirectoryLookup (productType_of formData);
           EvWorkerPost (endpoint env) payload].
Proof.
  intros Harr (Hne & fetched & dirdocs & Hall & Hdir & ->).
  unfold outcome, issued.
  rewrite (generatePacket_run env formData arr h docs Harr). cbv zeta.
  apply (Promise_all_fulfils (completion_time env)) in Hall.
  destruct (sorted_selection docs) as [|d0 rest] eqn:Hsel; [congruence|].
  rewrite <- Hsel in Hall |- *. rewrite Hall, Hdir.
  destruct (fetch_worker env (endpoint env) _); split; reflexivity.
Qed.

Lemma response_outcome_ok (env : Env) (r : WorkerResponse) (bytes : list Byte.byte) :
  wr_ok r = true -> wr_arrayBuffer r = Return bytes ->
  response_outcome env r
  = match bytes with
    | [] => Throw empty_artifact_error
    | _ :: _ => Return bytes
    end.
Proof.
  intros Hok Hbuf. unfold response_outcome, handle_response.
  rewrite Hok. run_async. rewrite Hbuf. now destruct bytes.
Qed.

(** C5. When the directory lookup fails while every document is
    processed and the rendering service answers with a non-empty body, the
    call returns that body, and the request it sent has an empty
    [allAvailableDocuments]. *)
Theorem C5_directory_failure_tolerated
    (env : Env) (formData : FormData) (arr : loc)
    (h : gmap nat (list SelectedDocument)) (docs : list SelectedDocument)
    (fetched : list FetchedDocument) (e : Thrown) (r : WorkerResponse)
    (bytes : list Byte.byte) :
  h !! arr = Some docs ->
  sorted_selection docs <> [] ->
  Forall2 (fun p v => p = Return v)
    (document_outcomes env 0 (sorted_selection docs)) fetched ->
  getDocumentsByProductType env (productType_of formData) = Throw e ->
  fetch_worker env (endpoint env)
    (build_payload env formData (sorted_selection docs) fetched []) = Return r ->
  wr_ok r = true ->
  wr_arrayBuffer r = Return bytes ->
  bytes <> [] ->
  outcome env formData arr h = Return bytes
  /\ (exists p, In (EvWorkerPost (endpoint env) p) (issued env formData arr h))
  /\ (forall u p, In (EvWorkerPost u p) (issued env formData arr h) ->
        allAvailableDocuments p = []).
Proof.
  intros Harr Hne Hall Hdir Hworker Hok Hbuf Hbytes.
  assert (Hdir' : directory_result env formData = Return []).
  { unfold directory_result. now rewrite Hdir. }
  assert (Hbuilt : request_built env formData docs
                     (build_payload env formData (sorted_selection docs) fetched [])).
  { split; [exact Hne|]. exists fetched, []. auto. }
  destruct (request_built_run env formData arr h docs _ Harr Hbuilt) as [Hout Hiss].
  split; [|split].
  - rewrite Hout, Hworker, (response_outcome_ok env r bytes Hok Hbuf).
    now destruct bytes.
  - eexists. rewrite Hiss. apply in_or_app. right. right. left. reflexivity.
  - intros u p Hin.
    destruct (issued_post_inv env formData arr h docs u p Harr Hin)
      as (fetched' & dirdocs & _ & Hd & _ & ->).
    rewrite Hdir' in Hd. inversion Hd. reflexivity.
Qed.

Lemma C5_witness :
  outcome sample_env [] 0%nat (sample_heap sample_docs)
  = Return [Byte.x25; Byte.x50]
  /\ (exists p, In (EvWorkerPost (endpoint sample_env) p)
                  (issued sample_env [] 0%nat (sample_heap sample_docs)))
  /\ (forall u p,
        In (EvWorkerPost u p) (issued sample_env [] 0%nat (sample_heap sample_docs)) ->
        allAvailableDocuments p = []).
Proof.
  apply (C5_directory_failure_tolerated sample_env [] 0%nat
           (sample_heap sample_docs) sample_docs (documents sample_payload)
           (new_Error "registry unavailable")
           (mkWorkerResponse true 200 "OK" (Throw ThrownOther)
              (Throw ThrownOther) (Return [Byte.x25; Byte.x50]))
           [Byte.x25; Byte.x50]).
  - reflexivity.
  - vm_compute. discriminate.
  - repeat constructor.
  - reflexivity.
  - reflexivity.
  - reflexivity.
  - reflexivity.
  - discriminate.
Defined.

(** C7. A success response with a zero-length body makes the call fail
    with the empty-artifact error; a success response with a non-empty
    body makes it return exactly those bytes. *)
Theorem C7_empty_artifact_rejected
    (env : Env) (formData : FormData) (arr : loc)
    (h : gmap nat (list SelectedDocument)) (docs : list SelectedDocument)
    (payload : Payload) (r : WorkerResponse) (bytes : list Byte.byte) :
  h !! arr = Some docs ->
  request_built env formData docs payload ->
  fetch_worker env (endpoint env) payload = Return r ->
  wr_ok r = true ->
  wr_arrayBuffer r = Return bytes ->
  (bytes = [] -> outcome env formData arr h = Throw empty_artifact_error)
  /\ (bytes <> [] -> outcome env formData arr h = Return bytes).
Proof.
  intros Harr Hbuilt Hworker Hok Hbuf.
  destruct (request_built_run env formData arr h docs _ Harr Hbuilt) as [Hout _].
  rewrite Hout, Hworker, (response_outcome_ok env r bytes Hok Hbuf).
  split; intros Hb; destruct bytes; try congruence; reflexivity.
Qed.

(** Discharges [request_built] on the sample selection by evaluation. *)
Ltac sample_built :=
  split; [vm_compute; discriminate|];
  exists (documents sample_payload), [];
  split; [repeat constructor | split; reflexivity].

Lemma C7_witness :
  (@nil Byte.byte = [] -> outcome empty_pdf_env [] 0%nat (sample_heap sample_docs)
              = Throw empty_artifact_error)
  /\ (@nil Byte.byte <> [] ->
      outcome empty_pdf_env [] 0%nat (sample_heap sample_docs) = Return []).
Proof.
  apply (C7_empty_artifact_rejected empty_pdf_env [] 0%nat
           (sample_heap sample_docs) sample_docs
           (build_payload empty_pdf_env [] (sorted_selection sample_docs)
              (documents sample_payload) [])
           (mkWorkerResponse true 200 "OK" (Throw ThrownOther)
              (Throw ThrownOther) (Return []))
           []).
  - reflexivity.
  - sample_built.
  - reflexivity.
  - reflexivity.
  - reflexivity.
Defined.

(** ** Rejections of the rendering service *)

Lemma response_outcome_json (env : Env) (r : WorkerResponse) (errorData : jsval) :
  wr_ok r = false ->
  wr_json r = Return errorData ->
  nullish errorData = false ->
  response_outcome env r = Throw (new_Error (json_error_message env r errorData)).
Proof.
  intros Hok Hjson Hnull.
  unfold response_outcome, handle_response, error_detail. rewrite Hok. simpl.
  run_async. rewrite Hjson. simpl. unfold get. rewrite Hnull. reflexivity.
Qed.

Lemma classify_plain (env : Env) (msg : string) :
  reclassified msg = false -> classify env (new_Error msg) = new_Error msg.
Proof.
  unfold reclassified, classify, new_Error. intros H.
  apply orb_false_iff in H as [H1 H2].
  cbn [instanceof_TypeError instanceof_Error message andb]. now rewrite H1, H2.
Qed.

Lemma worker_error_message_carries (r : WorkerResponse) (detail : string) :
  carries (new_Error (worker_error_message r detail)) r detail.
Proof.
  unfold carries, worker_error_message, worker_error_prefix. simpl message.
  repeat split.
  - apply (includes_append_l _ (" - " +:+ detail)).
    apply (includes_middle "Worker request failed: "
             (of_N (wr_status r)) (" " +:+ wr_statusText r)).
  - apply (includes_append_l _ (" - " +:+ detail)).
    apply (includes_append_r "Worker request failed: ").
    apply (includes_append_r (of_N (wr_status r))).
    apply (includes_suffix " ").
  - apply includes_append_r. apply (includes_suffix " - ").
Qed.

(** C6, as stated, fails, in two ways.  The service answers 500 with the
    JSON body [{message: 'Bucket not found'}]: the error the call fails
    with carries neither the status nor the extracted message.  The service
    answers 502 with a body that is not JSON: the error the call fails with
    carries no status, whatever the detail is taken to be. *)
Lemma C6_counterexample :
  (wr_ok bucket_response = false
   /\ wr_json bucket_response
      = Return (JObj [("message", JStr "Bucket not found")])
   /\ request_built bucket_env [] sample_docs
        (build_payload bucket_env [] (sorted_selection sample_docs)
           (documents sample_payload) [])
   /\ ~ (exists e, outcome bucket_env [] 0%nat (sample_heap sample_docs) = Throw e
                   /\ carries e bucket_response "Bucket not found"))
  /\ (wr_ok unparsable_response = false
      /\ request_built unparsable_env [] sample_docs
           (build_payload unparsable_env [] (sorted_selection sample_docs)
              (documents sample_payload) [])
      /\ ~ (exists e detail,
              outcome unparsable_env [] 0%nat (sample_heap sample_docs) = Throw e
              /\ carries e unparsable_response detail)).
Proof.
  split.
  - split; [reflexivity|]. split; [reflexivity|]. split; [sample_built|].
    intros (e & He & Hstatus & _).
    assert (Hout : outcome bucket_env [] 0%nat (sample_heap sample_docs)
                   = Throw (new_Error storage_message)) by reflexivity.
    rewrite Hout in He. inversion He; subst e.
    vm_compute in Hstatus. discriminate.
  - split; [reflexivity|]. split; [sample_built|].
    intros (e & detail & He & Hstatus & _).
    assert (Hout : outcome unparsable_env [] 0%nat (sample_heap sample_docs)
                   = Throw (ThrownError ClsTypeError
                              "Failed to execute 'text' on 'Response': body stream already read"))
      by reflexivity.
    rewrite Hout in He. inversion He; subst e.
    vm_compute in Hstatus. discriminate.
Qed.

Lemma classify_documents (env : Env) (msg : string) :
  includes msg "Failed to process document" = true ->
  classify env (new_Error msg) = new_Error documents_message.
Proof.
  intros H. unfold classify, new_Error.
  cbn [instanceof_TypeError instanceof_Error message andb]. now rewrite H.
Qed.

Lemma classify_storage (env : Env) (msg : string) :
  includes msg "Failed to process document" = false ->
  includes (toLowerCase msg) "bucket" = true ->
  classify env (new_Error msg) = new_Error storage_message.
Proof.
  intros H1 H2. unfold classify, new_Error.
  cbn [instanceof_TypeError instanceof_Error message andb]. now rewrite H1, H2.
Qed.

Lemma json_detail_cases (env : Env) (errorData : jsval) :
  (truthy (opt_get errorData "message") = true ->
   json_detail env errorData = template env (opt_get errorData "message"))
  /\ (truthy (opt_get errorData "message") = false ->
      json_detail env errorData = JSON_stringify env errorData).
Proof. unfold json_detail, js_or. split; intros ->; reflexivity. Qed.

(** C6, amended. For a non-success response whose body [json()] parses
    to a value other than [null], the error text built is
    ["Worker request failed: <status> <statusText> - <detail>"], the detail
    being the [message] of the JSON body when it is truthy and the
    serialised JSON body otherwise.  When that text contains neither
    ["Failed to process document"] nor, once lower-cased, ["bucket"], the
    call fails with the error of exactly that text, which carries the
    status, the status text and the detail; when it contains the first, the
    call fails with the document-loading message, and when it contains only
    the second, with the storage-configuration message. *)
Theorem C6_render_service_error
    (env : Env) (formData : FormData) (arr : loc)
    (h : gmap nat (list SelectedDocument)) (docs : list SelectedDocument)
    (payload : Payload) (r : WorkerResponse) (errorData : jsval) :
  h !! arr = Some docs ->
  request_built env formData docs payload ->
  fetch_worker env (endpoint env) payload = Return r ->
  wr_ok r = false ->
  wr_json r = Return errorData ->
  nullish errorData = false ->
  (truthy (opt_get errorData "message") = true ->
   json_detail env errorData = template env (opt_get errorData "message"))
  /\ (truthy (opt_get errorData "message") = false ->
      json_detail env errorData = JSON_stringify env errorData)
  /\ (reclassified (json_error_message env r errorData) = false ->
      outcome env formData arr h
      = Throw (new_Error (json_error_message env r errorData))
      /\ carries (new_Error (json_error_message env r errorData)) r
           (json_detail env errorData))
  /\ (includes (json_error_message env r errorData) "Failed to process document"
      = true ->
      outcome env formData arr h = Throw (new_Error documents_message))
  /\ (includes (json_error_message env r errorData) "Failed to process document"
      = false ->
      includes (toLowerCase (json_error_message env r errorData)) "bucket" = true ->
      outcome env formData arr h = Throw (new_Error storage_message)).
Proof.
  intros Harr Hbuilt Hworker Hok Hjson Hnull.
  destruct (request_built_run env formData arr h docs _ Harr Hbuilt) as [Hout _].
  rewrite Hout, Hworker, (response_outcome_json env r errorData Hok Hjson Hnull).
  simpl rethrown.
  destruct (json_detail_cases env errorData) as [Hmsg Hraw].
  split; [exact Hmsg|]. split; [exact Hraw|]. split; [|split].
  - intros Hplain. rewrite (classify_plain env _ Hplain).
    split; [reflexivity | apply worker_error_message_carries].
  - intros Hdoc. now rewrite (classify_documents env _ Hdoc).
  - intros Hdoc Hbucket. now rewrite (classify_storage env _ Hdoc Hbucket).
Qed.

Lemma C6_witness :
  outcome render_failed_env [] 0%nat (sample_heap sample_docs)
  = Throw (new_Error (json_error_message render_failed_env render_failed_response
                        (JObj [("message", JStr "render failed")])))
  /\ carries (new_Error (json_error_message render_failed_env
                           render_failed_response
                           (JObj [("message", JStr "render failed")])))
       render_failed_response
       (json_detail render_failed_env (JObj [("message", JStr "render failed")])).
Proof.
  assert (Hbuilt : request_built render_failed_env [] sample_docs
                     (build_payload render_failed_env []
                        (sorted_selection sample_docs)
                        (documents sample_payload) [])) by sample_built.
  destruct (C6_render_service_error render_failed_env [] 0%nat
              (sample_heap sample_docs) sample_docs _ render_failed_response
              (JObj [("message", JStr "render failed")])
              eq_refl Hbuilt eq_refl eq_refl eq_refl eq_refl)
    as (_ & _ & Hplain & _).
  apply Hplain. vm_compute. reflexivity.
Defined.

(** The scenario of the specification: the surfaced error text is
    ["Worker request failed: 500 Internal Server Error - render failed"]. *)
Example render_failed_surfaces :
  outcome render_failed_env [] 0%nat (sample_heap sample_docs)
  = Throw (new_Error
             "Worker request failed: 500 Internal Server Error - render failed").
Proof. reflexivity. Qed.

(** * More of [generatePacket] *)

(** ** What the call returns and throws *)

Lemma response_outcome_Return (env : Env) (r : WorkerResponse) (bytes : list Byte.byte) :
  response_outcome env r = Return bytes ->
  wr_ok r = true /\ wr_arrayBuffer r = Return bytes /\ bytes <> [].
Proof.
  unfold response_outcome, handle_response.
  destruct (wr_ok r); simpl.
  - run_async. destruct (wr_arrayBuffer r) as [buf| |]; simpl; try discriminate.
    destruct buf as [|b0 buf]; simpl; [discriminate|].
    intros H; inversion H; subst. repeat split; discriminate.
  - unfold bind. destruct (error_detail env r (mkWorld ∅ [])) as [[d| |] w0];
      simpl; discriminate.
Qed.

(** X1. Whatever the call returns is the non-empty body of a success
    response that the rendering service gave to the request posted to
    [<workerUrl>/generate-packet]. *)
Theorem X1_returned_artifact_is_service_body
    (env : Env) (formData : FormData) (arr : loc)
    (h : gmap nat (list SelectedDocument)) (docs : list SelectedDocument)
    (bytes : list Byte.byte) :
  h !! arr = Some docs ->
  outcome env formData arr h = Return bytes ->
  bytes <> []
  /\ exists p r,
       In (EvWorkerPost (endpoint env) p) (issued env formData arr h)
       /\ fetch_worker env (endpoint env) p = Return r
       /\ wr_ok r = true
       /\ wr_arrayBuffer r = Return bytes.
Proof.
  intros Harr. unfold outcome, issued.
  rewrite (generatePacket_run env formData arr h docs Harr). cbv zeta.
  destruct (sorted_selection docs) as [|d0 rest] eqn:Hsel; [discriminate|].
  rewrite <- Hsel.
  destruct (Promise_all _ _) as [fetched|e|]; try discriminate.
  destruct (directory_result env formData) as [dirdocs|e|]; try discriminate.
  destruct (fetch_worker env (endpoint env) _) as [r|e|] eqn:Hw; try discriminate.
  simpl fst. simpl snd. simpl w_trace. intros Hout.
  assert (Hr : response_outcome env r = Return bytes).
  { destruct (response_outcome env r); simpl in Hout; congruence. }
  apply response_outcome_Return in Hr as (Hok & Hbuf & Hne).
  split; [exact Hne|]. eexists. exists r. split; [|split; [exact Hw|auto]].
  apply in_or_app. right. right. left. reflexivity.
Qed.

Lemma X1_witness :
  [Byte.x25; Byte.x50] <> []
  /\ exists p r,
       In (EvWorkerPost (endpoint sample_env) p)
          (issued sample_env [] 0%nat (sample_heap sample_docs))
       /\ fetch_worker sample_env (endpoint sample_env) p = Return r
       /\ wr_ok r = true
       /\ wr_arrayBuffer r = Return [Byte.x25; Byte.x50].
Proof.
  apply (X1_returned_artifact_is_service_body sample_env [] 0%nat
           (sample_heap sample_docs) sample_docs [Byte.x25; Byte.x50]);
    reflexivity.
Defined.

Lemma classify_is_Error (env : Env) (e : Thrown) :
  instanceof_Error (classify env e) = true.
Proof.
  unfold classify. destruct e as [[|] m|]; simpl;
    repeat match goal with
           | |- context [if ?b then _ else _] => destruct b
           end; reflexivity.
Qed.

(** X2. Whatever the call throws is an [Error] object, also when what
    went wrong inside was the throw of another kind of value. *)
Theorem X2_throws_only_errors
    (env : Env) (formData : FormData) (arr : loc)
    (h : gmap nat (list SelectedDocument)) (e : Thrown) :
  outcome env formData arr h = Throw e -> instanceof_Error e = true.
Proof.
  unfold outcome, generatePacket, try_catch.
  destruct (generatePacket_try env formData arr (mkWorld h [])) as [[b|e0|] w];
    simpl; try discriminate.
  intros H; inversion H; subst. apply classify_is_Error.
Qed.

Lemma X2_witness :
  instanceof_Error (new_Error "Failed to generate PDF packet") = true.
Proof.
  apply (X2_throws_only_errors odd_rejection_env [] 0%nat
           (sample_heap sample_docs)).
  reflexivity.
Defined.

(** ** The rendering service out of reach *)

(** X3. When the request to the rendering service is rejected with a
    [TypeError] whose message contains [fetch], the call fails with the
    connectivity message, which names the configured worker url. *)
Theorem X3_unreachable_service_reported
    (env : Env) (formData : FormData) (arr : loc)
    (h : gmap nat (list SelectedDocument)) (docs : list SelectedDocument)
    (payload : Payload) (m : string) :
  h !! arr = Some docs ->
  request_built env formData docs payload ->
  fetch_worker env (endpoint env) payload = Throw (ThrownError ClsTypeError m) ->
  includes m "fetch" = true ->
  outcome env formData arr h = Throw (new_Error (connectivity_message env))
  /\ includes (connectivity_message env) (workerUrl env) = true.
Proof.
  intros Harr Hbuilt Hworker Hm.
  destruct (request_built_run env formData arr h docs _ Harr Hbuilt) as [Hout _].
  rewrite Hout, Hworker. split.
  - unfold classify. cbn [instanceof_TypeError message andb]. now rewrite Hm.
  - unfold connectivity_message.
    apply includes_append_l.
    apply (includes_middle "Cannot connect to PDF Worker at " (workerUrl env) ". ").
Qed.

Lemma X3_witness :
  outcome offline_env [] 0%nat (sample_heap sample_docs)
  = Throw (new_Error (connectivity_message offline_env))
  /\ includes (connectivity_message offline_env) (workerUrl offline_env) = true.
Proof.
  apply (X3_unreachable_service_reported offline_env [] 0%nat
           (sample_heap sample_docs) sample_docs
           (build_payload offline_env [] (sorted_selection sample_docs)
              (documents sample_payload) [])
           "Failed to fetch").
  - reflexivity.
  - sample_built.
  - reflexivity.
  - reflexivity.
Defined.

Lemma classify_unclassified (env : Env) (e : Thrown) :
  unclassified e = true -> classify env e = e.
Proof.
  unfold unclassified, classify, reclassified. intros H.
  apply andb_true_iff in H as [H Hre]. apply andb_true_iff in H as [Herr Hty].
  apply negb_true_iff in Hty, Hre. apply orb_false_iff in Hre as [H1 H2].
  now rewrite Hty, Herr, H1, H2.
Qed.

(** X4. An [Error] with which the request to the rendering service is
    rejected, and to which no test of the catch clause reacts (as a
    [TypeError] whose message does not contain [fetch]), reaches the caller
    unchanged. *)
Theorem X4_unclassified_rejection_passes
    (env : Env) (formData : FormData) (arr : loc)
    (h : gmap nat (list SelectedDocument)) (docs : list SelectedDocument)
    (payload : Payload) (e : Thrown) :
  h !! arr = Some docs ->
  request_built env formData docs payload ->
  fetch_worker env (endpoint env) payload = Throw e ->
  unclassified e = true ->
  outcome env formData arr h = Throw e.
Proof.
  intros Harr Hbuilt Hworker Hun.
  destruct (request_built_run env formData arr h docs _ Harr Hbuilt) as [Hout _].
  now rewrite Hout, Hworker, (classify_unclassified env e Hun).
Qed.

(** A message that spells [bucket] with U+212A KELVIN SIGN is lower-cased
    to one containing [bucket], and so is reclassified. *)
Example kelvin_sign_is_lowered :
  toLowerCase ("BUC" +:+ kelvin_sign +:+ "ET missing") = "bucket missing"
  /\ unclassified (new_Error ("BUC" +:+ kelvin_sign +:+ "ET missing")) = false
  /\ classify sample_env (new_Error ("BUC" +:+ kelvin_sign +:+ "ET missing"))
     = new_Error storage_message.
Proof. repeat split. Qed.

Lemma X4_witness :
  outcome load_failed_env [] 0%nat (sample_heap sample_docs)
  = Throw (ThrownError ClsTypeError "Load failed").
Proof.
  apply (X4_unclassified_rejection_passes load_failed_env [] 0%nat
           (sample_heap sample_docs) sample_docs
           (build_payload load_failed_env [] (sorted_selection sample_docs)
              (documents sample_payload) [])).
  - reflexivity.
  - sample_built.
  - reflexivity.
  - reflexivity.
Defined.

(** ** The requests of a call *)

Lemma document_requests_usable (sel : list SelectedDocument) :
  flat_map document_requests sel = map EvFetchDocument (omap usable_url sel).
Proof.
  induction sel as [|d sel IH]; [reflexivity|].
  simpl. rewrite IH. unfold document_requests, usable_url.
  destruct (doc_url (sd_document d)) as [[|c u]|]; reflexivity.
Qed.

Lemma issued_shape (env : Env) (formData : FormData) (arr : loc)
    (h : gmap nat (list SelectedDocument)) (docs : list SelectedDocument) :
  h !! arr = Some docs ->
  exists tail,
    issued env formData arr h
    = flat_map document_requests (sorted_selection docs) ++ tail
    /\ (tail = []
        \/ tail = [EvDirectoryLookup (productType_of formData)]
        \/ exists p, tail = [EvDirectoryLookup (productType_of formData);
                             EvWorkerPost (endpoint env) p]).
Proof.
  intros Harr. unfold issued.
  rewrite (generatePacket_run env formData arr h docs Harr). cbv zeta.
  set (reqs := flat_map document_requests (sorted_selection docs)).
  assert (Hnil : sorted_selection docs = [] -> reqs = []).
  { unfold reqs. now intros ->. }
  clearbody reqs.
  destruct (sorted_selection docs) as [|d0 rest].
  { exists []. rewrite Hnil by reflexivity. auto. }
  destruct (Promise_all _ _) as [fetched|e|]; simpl;
    try (exists []; rewrite app_nil_r; now auto).
  destruct (directory_result env formData) as [dirdocs|e|]; simpl;
    try (eexists; split; [reflexivity|]; now auto).
  destruct (fetch_worker env (endpoint env) _); simpl;
    (eexists; split; [reflexivity|]; right; right; eauto).
Qed.

(** X5. The requests of a call are, in this order: one fetch for each
    selected entry with a non-empty url, in sorted order and also when
    documents fail; then at most one directory lookup; then at most one
    request to the rendering service, at [<workerUrl>/generate-packet].
    Entries that are not selected are never fetched. *)
Theorem X5_requests_of_a_call
    (env : Env) (formData : FormData) (arr : loc)
    (h : gmap nat (list SelectedDocument)) (docs : list SelectedDocument) :
  h !! arr = Some docs ->
  (exists tail,
     issued env formData arr h
     = map EvFetchDocument (omap usable_url (sorted_selection docs)) ++ tail
     /\ (tail = []
         \/ tail = [EvDirectoryLookup (productType_of formData)]
         \/ exists p, tail = [EvDirectoryLookup (productType_of formData);
                              EvWorkerPost (endpoint env) p]))
  /\ forall u, In (EvFetchDocument u) (issued env formData arr h) ->
       exists d, In d docs /\ sd_selected d = true
                 /\ doc_url (sd_document d) = Some u.
Proof.
  intros Harr.
  destruct (issued_shape env formData arr h docs Harr) as (tail & Hiss & Htail).
  split.
  - exists tail. now rewrite <- document_requests_usable.
  - intros u. rewrite Hiss, in_app_iff. intros [Hin|Hin].
    + apply in_flat_map in Hin as (d & Hd & Hu).
      apply sorted_by_In, filter_In in Hd as [Hd Hsel].
      exists d. repeat split; auto. unfold document_requests in Hu.
      destruct (doc_url (sd_document d)) as [[|c v]|]; simpl in Hu; try tauto.
      destruct Hu as [Hu|[]]. now inversion Hu.
    + destruct Htail as [->|[->|[p ->]]]; simpl in Hin;
        intuition discriminate.
Qed.

Lemma X5_witness :
  (exists tail,
     issued sample_env [] 0%nat (sample_heap (zeta :: sample_docs))
     = map EvFetchDocument (omap usable_url (sorted_selection (zeta :: sample_docs)))
       ++ tail
     /\ (tail = []
         \/ tail = [EvDirectoryLookup (productType_of [])]
         \/ exists p, tail = [EvDirectoryLookup (productType_of []);
                              EvWorkerPost (endpoint sample_env) p]))
  /\ forall u,
       In (EvFetchDocument u)
          (issued sample_env [] 0%nat (sample_heap (zeta :: sample_docs))) ->
       exists d, In d (zeta :: sample_docs) /\ sd_selected d = true
                 /\ doc_url (sd_document d) = Some u.
Proof.
  apply (X5_requests_of_a_call sample_env [] 0%nat
           (sample_heap (zeta :: sample_docs)) (zeta :: sample_docs)).
  reflexivity.
Defined.

(** The document without url fails the call, and the three others were
    fetched all the same. *)
Example fetches_despite_failure :
  issued sample_env [] 0%nat (sample_heap (zeta :: sample_docs))
  = [EvFetchDocument "https://files/b"; EvFetchDocument "https://files/d";
     EvFetchDocument "https://files/a"].
Proof. reflexivity. Qed.

(** ** More on the payload *)

Lemma js_or_kept (a d : jsval) : kept truthy a (js_or a d).
Proof. unfold kept, js_or. now intros ->. Qed.

Lemma js_nullish_or_kept (a d : jsval) : kept not_nullish a (js_nullish_or a d).
Proof.
  unfold kept, not_nullish, js_nullish_or. intros H.
  apply negb_true_iff in H. now rewrite H.
Qed.

(** X6. In any request the call sends, a text field of the form that is
    truthy and a flag that is neither [null] nor [undefined] are sent
    unchanged; only falsy text (as the empty string) and missing flags are
    replaced. *)
Theorem X6_provided_values_sent_unchanged
    (env : Env) (formData : FormData) (arr : loc)
    (h : gmap nat (list SelectedDocument)) (docs : list SelectedDocument)
    (u : string) (p : Payload) :
  h !! arr = Some docs ->
  In (EvWorkerPost u p) (issued env formData arr h) ->
  provided_values_kept formData (projectData p).
Proof.
  intros Harr Hin.
  destruct (issued_post_inv env formData arr h docs u p Harr Hin)
    as (fetched & dirdocs & _ & _ & _ & ->). simpl.
  unfold provided_values_kept, build_projectData, productType_of; simpl.
  repeat constructor; simpl;
    first [apply js_or_kept | apply js_nullish_or_kept].
Qed.

Lemma X6_witness :
  provided_values_kept sample_form (projectData sample_form_payload).
Proof.
  apply (X6_provided_values_sent_unchanged sample_env sample_form 0%nat
           (sample_heap sample_docs) sample_docs
           (endpoint sample_env) sample_form_payload).
  - reflexivity.
  - vm_compute. do 4 right. left. reflexivity.
Defined.

Example sample_form_sent :
  projectName (projectData sample_form_payload) = JStr "Riverside Lofts"
  /\ submittedTo (projectData sample_form_payload) = JStr "N/A"
  /\ productType (projectData sample_form_payload) = JStr "underlayment"
  /\ forReview (status (projectData sample_form_payload)) = JBool true
  /\ forRecord (status (projectData sample_form_payload)) = JBool false.
Proof. repeat split. Qed.

(** X7. The product type a request carries is never falsy, and it is the
    one the directory was asked about just before. *)
Theorem X7_product_type_of_request_and_lookup
    (env : Env) (formData : FormData) (arr : loc)
    (h : gmap nat (list SelectedDocument)) (docs : list SelectedDocument)
    (u : string) (p : Payload) :
  h !! arr = Some docs ->
  In (EvWorkerPost u p) (issued env formData arr h) ->
  truthy (productType (projectData p)) = true
  /\ exists before,
       issued env formData arr h
       = before ++ [EvDirectoryLookup (productType (projectData p));
                    EvWorkerPost u p].
Proof.
  intros Harr Hin.
  destruct (issued_post_inv env formData arr h docs u p Harr Hin)
    as (fetched & dirdocs & _ & _ & -> & Hp).
  split.
  - rewrite Hp. simpl. unfold productType_of, js_or.
    destruct (truthy (prop formData "productType")) eqn:Ht; [exact Ht|reflexivity].
  - destruct (issued_shape env formData arr h docs Harr) as (tail & Hiss & Htail).
    rewrite Hiss in Hin |- *. apply in_app_iff in Hin as [Hin|Hin].
    { apply document_requests_fetch_only in Hin as [url Hurl]. discriminate. }
    destruct Htail as [->|[->|[p' ->]]]; simpl in Hin; try intuition discriminate.
    destruct Hin as [Hin|[Hin|[]]]; [discriminate|]. inversion Hin; subst p'.
    eexists. rewrite Hp at 2. reflexivity.
Qed.

Lemma X7_witness :
  truthy (productType (projectData sample_form_payload)) = true
  /\ exists before,
       issued sample_env sample_form 0%nat (sample_heap sample_docs)
       = before ++ [EvDirectoryLookup (productType (projectData sample_form_payload));
                    EvWorkerPost (endpoint sample_env) sample_form_payload].
Proof.
  apply (X7_product_type_of_request_and_lookup sample_env sample_form 0%nat
           (sample_heap sample_docs) sample_docs).
  - reflexivity.
  - vm_compute. do 4 right. left. reflexivity.
Defined.

Lemma available_names_In (dirdocs : list Document) (n : string) :
  In n (available_names dirdocs)
  <-> n <> EmptyString /\ exists d, In d dirdocs /\ doc_name d = Some n.
Proof.
  unfold available_names. rewrite <- list_elem_of_In, list_elem_of_omap. split.
  - intros (d & Hd & Hn). apply list_elem_of_In in Hd.
    destruct (doc_name d) as [[|c m]|] eqn:Hname; try discriminate.
    inversion Hn; subst. split; [discriminate|eauto].
  - intros (Hne & d & Hd & Hname). exists d. split; [now apply list_elem_of_In|].
    rewrite Hname. destruct n; [congruence|reflexivity].
Qed.

(** X8. When the directory lookup succeeds, [allAvailableDocuments] of
    the request holds exactly the non-empty names of the documents the
    directory returned; documents without a name or with an empty name are
    left out. *)
Theorem X8_available_documents_named
    (env : Env) (formData : FormData) (arr : loc)
    (h : gmap nat (list SelectedDocument)) (docs : list SelectedDocument)
    (dirdocs : list Document) (u : string) (p : Payload) :
  h !! arr = Some docs ->
  getDocumentsByProductType env (productType_of formData) = Return dirdocs ->
  In (EvWorkerPost u p) (issued env formData arr h) ->
  forall n, In n (allAvailableDocuments p)
            <-> n <> EmptyString /\ exists d, In d dirdocs /\ doc_name d = Some n.
Proof.
  intros Harr Hdir Hin n.
  destruct (issued_post_inv env formData arr h docs u p Harr Hin)
    as (fetched & dirdocs' & _ & Hd & _ & ->). simpl.
  unfold directory_result in Hd. rewrite Hdir in Hd. inversion Hd; subst.
  apply available_names_In.
Qed.

Lemma X8_witness :
  In "TDS.pdf"
     (allAvailableDocuments
        (build_payload directory_env [] (sorted_selection sample_docs)
           (documents sample_payload) directory_docs))
  <-> "TDS.pdf" <> EmptyString
      /\ exists d, In d directory_docs /\ doc_name d = Some "TDS.pdf".
Proof.
  apply (X8_available_documents_named directory_env [] 0%nat
           (sample_heap sample_docs) sample_docs directory_docs
           (endpoint directory_env)).
  - reflexivity.
  - reflexivity.
  - vm_compute. do 4 right. left. reflexivity.
Defined.

Example directory_names_sent :
  allAvailableDocuments
    (build_payload directory_env [] (sorted_selection sample_docs)
       (documents sample_payload) directory_docs)
  = ["TDS.pdf"; "ESR.pdf"].
Proof. reflexivity. Qed.

Lemma fetched_names (sel : list SelectedDocument) (fetched : list FetchedDocument) :
  Forall2 fetched_from sel fetched ->
  names_of sel = map fd_name fetched /\ length fetched = length sel.
Proof.
  induction 1 as [|d f sel fetched Hf _ [IHn IHl]]; simpl; [auto|].
  destruct Hf as (_ & Hname & _). rewrite Hname, IHn, IHl. auto.
Qed.

(** X9. In any request the call sends, [selectedDocumentNames] is, index
    by index, the [name] of the elements of [documents], and both have as
    many elements as the input has selected entries. *)
Theorem X9_names_match_documents
    (env : Env) (formData : FormData) (arr : loc)
    (h : gmap nat (list SelectedDocument)) (docs : list SelectedDocument)
    (u : string) (p : Payload) :
  h !! arr = Some docs ->
  In (EvWorkerPost u p) (issued env formData arr h) ->
  selectedDocumentNames p = map fd_name (documents p)
  /\ length (documents p) = length (List.filter sd_selected docs).
Proof.
  intros Harr Hin.
  destruct (issued_post_inv env formData arr h docs u p Harr Hin)
    as (fetched & dirdocs & Hall & _ & _ & ->). simpl.
  apply Promise_all_Return, document_outcomes_Return, fetched_names in Hall
    as [Hn Hl].
  split; [exact Hn|]. rewrite Hl. unfold sorted_selection.
  apply Permutation_length, sorted_by_perm.
Qed.

Lemma X9_witness :
  selectedDocumentNames sample_payload = map fd_name (documents sample_payload)
  /\ length (documents sample_payload)
     = length (List.filter sd_selected sample_docs).
Proof.
  apply (X9_names_match_documents sample_env [] 0%nat
           (sample_heap sample_docs) sample_docs
           (endpoint sample_env) sample_payload).
  - reflexivity.
  - vm_compute. do 4 right. left. reflexivity.
Defined.

(** ** The encoded document *)

(** X10. For a document whose read gives a data URL made of a prefix
    without comma, a comma, and a non-empty payload without comma (as
    base64 text is), the [fileData] of the fetched document is exactly that
    payload: the prefix is stripped and nothing else is changed. *)
Theorem X10_fileData_is_the_payload
    (env : Env) (i : nat) (doc : SelectedDocument) (c : ascii) (u : string)
    (response : DocResponse) (blob : Blob) (prefix : string)
    (c0 : ascii) (data : string) :
  doc_url (sd_document doc) = Some (String c u) ->
  fetch_document env i (String c u) = Return response ->
  dr_ok response = true ->
  dr_blob response = Return blob ->
  blob_dataURL blob = Some (prefix +:+ "," +:+ String c0 data) ->
  has_char "," prefix = false ->
  has_char "," (String c0 data) = false ->
  exists fdoc,
    document_outcome env i doc = Return fdoc
    /\ fd_fileData fdoc = String c0 data
    /\ fd_url fdoc = String c u.
Proof.
  intros Hu Hf Hok Hb Hr Hp Hd.
  assert (Hpay : base64_payload (prefix +:+ "," +:+ String c0 data)
                 = String c0 data).
  { unfold base64_payload.
    change (prefix +:+ "," +:+ String c0 data)
      with (prefix +:+ String "," (String c0 data)).
    rewrite (split_at_separator "," prefix _ Hp), (split_no_separator _ _ Hd).
    reflexivity. }
  eexists. split; [|split].
  - unfold document_outcome, processDocument. rewrite Hu. run_async.
    rewrite Hf. simpl. rewrite Hok. simpl. rewrite Hb. simpl.
    unfold encode, readAsDataURL. rewrite Hr. unfold onloadend. rewrite Hpay.
    simpl. reflexivity.
  - reflexivity.
  - reflexivity.
Qed.

Lemma X10_witness :
  exists fdoc,
    document_outcome sample_env 0
      (sample_doc "a" "A.pdf" "https://files/a" true 2) = Return fdoc
    /\ fd_fileData fdoc = "JVBERg=="
    /\ fd_url fdoc = "https://files/a".
Proof.
  apply (X10_fileData_is_the_payload sample_env 0
           (sample_doc "a" "A.pdf" "https://files/a" true 2)
           "h"%char "ttps://files/a"
           (mkDocResponse true 200 "OK" (Return (pdf_blob "JVBERg==")))
           (pdf_blob "JVBERg==") "data:application/pdf;base64"
           "J"%char "VBERg=="); reflexivity.
Defined.

(** ** Operations that never settle, calls that are repeated *)

Lemma all_values_Pending {A} (ps : list (Completion A)) :
  In Pending ps -> all_values ps = None.
Proof.
  induction ps as [|p ps IH]; simpl; [tauto|].
  intros [->|Hin]; [reflexivity|].
  destruct p; try reflexivity. now rewrite (IH Hin).
Qed.

Lemma Promise_all_Pending {A} (time : nat -> nat) (ps : list (Completion A)) :
  In Pending ps -> (forall e, ~ In (Throw e) ps) -> Promise_all time ps = Pending.
Proof.
  intros Hp Hno. unfold Promise_all.
  destruct (earliest_rejection time 0 ps) as [[t e]|] eqn:He.
  - apply earliest_rejection_In in He. now elim (Hno e).
  - now rewrite (all_values_Pending ps Hp).
Qed.

(** X11. No operation has a timeout: when the fetch of one selected
    document never settles and no document fails, the call never settles
    either, and after the document fetches nothing more is requested. *)
Theorem X11_hanging_fetch_hangs_call
    (env : Env) (formData : FormData) (arr : loc)
    (h : gmap nat (list SelectedDocument)) (docs : list SelectedDocument)
    (i : nat) (doc : SelectedDocument) (c : ascii) (u : string) :
  h !! arr = Some docs ->
  nth_error (sorted_selection docs) i = Some doc ->
  doc_url (sd_document doc) = Some (String c u) ->
  fetch_document env i (String c u) = Pending ->
  (forall k d e, nth_error (sorted_selection docs) k = Some d ->
                 document_outcome env k d <> Throw e) ->
  outcome env formData arr h = Pending
  /\ issued env formData arr h
     = flat_map document_requests (sorted_selection docs).
Proof.
  intros Harr Hnth Hu Hf Hno. unfold outcome, issued.
  rewrite (generatePacket_run env formData arr h docs Harr). cbv zeta.
  assert (Hpend : document_outcome env i doc = Pending).
  { unfold document_outcome, processDocument. rewrite Hu. run_async.
    now rewrite Hf. }
  assert (Hall : Promise_all (completion_time env)
                   (document_outcomes env 0 (sorted_selection docs)) = Pending).
  { apply Promise_all_Pending.
    - apply document_outcomes_In. exists i, doc. now rewrite Nat.add_0_l.
    - intros e Hin. apply document_outcomes_In in Hin as (k & d & Hk & Hd).
      rewrite Nat.add_0_l in Hd. symmetry in Hd. exact (Hno k d e Hk Hd). }
  destruct (sorted_selection docs) as [|d0 rest] eqn:Hsel; [now destruct i|].
  rewrite <- Hsel in Hall |- *. rewrite Hall. split; reflexivity.
Qed.

Lemma X11_witness :
  outcome hanging_env [] 0%nat (sample_heap sample_docs) = Pending
  /\ issued hanging_env [] 0%nat (sample_heap sample_docs)
     = flat_map document_requests (sorted_selection sample_docs).
Proof.
  apply (X11_hanging_fetch_hangs_call hanging_env [] 0%nat
           (sample_heap sample_docs) sample_docs 1
           (sample_doc "d" "D.pdf" "https://files/d" true 1)
           "h"%char "ttps://files/d").
  - reflexivity.
  - reflexivity.
  - reflexivity.
  - reflexivity.
  - intros [|[|[|[|k]]]] d e Hk; vm_compute in Hk; try discriminate;
      inversion Hk; subst d; vm_compute; discriminate.
Defined.

(** X12. A call can be repeated: a second call on the same array, made in
    the store the first call left, issues the same requests and ends the
    same way, because the first call did not touch the array. *)
Theorem X12_call_can_be_repeated
    (env : Env) (formData : FormData) (arr : loc)
    (h : gmap nat (list SelectedDocument)) (docs : list SelectedDocument) :
  h !! arr = Some docs ->
  outcome env formData arr (heap_after env formData arr h)
  = outcome env formData arr h
  /\ issued env formData arr (heap_after env formData arr h)
     = issued env formData arr h.
Proof.
  intros Harr.
  apply (call_determined_by_selection env formData arr arr h
           (heap_after env formData arr h) docs docs); auto.
  rewrite (heap_after_eq env formData arr h docs Harr).
  now apply heap_sorted_lookup.
Qed.

Lemma X12_witness :
  outcome sample_env [] 0%nat
    (heap_after sample_env [] 0%nat (sample_heap sample_docs))
  = outcome sample_env [] 0%nat (sample_heap sample_docs)
  /\ issued sample_env [] 0%nat
       (heap_after sample_env [] 0%nat (sample_heap sample_docs))
     = issued sample_env [] 0%nat (sample_heap sample_docs).
Proof.
  apply (X12_call_can_be_repeated sample_env [] 0%nat
           (sample_heap sample_docs) sample_docs).
  reflexivity.
Defined.

(** X13. When the request to the rendering service is rejected with a
    value that is not an [Error], the call fails with the generic error
    ["Failed to generate PDF packet"]. *)
Theorem X13_non_error_rejection_replaced
    (env : Env) (formData : FormData) (arr : loc)
    (h : gmap nat (list SelectedDocument)) (docs : list SelectedDocument)
    (payload : Payload) (e : Thrown) :
  h !! arr = Some docs ->
  request_built env formData docs payload ->
  fetch_worker env (endpoint env) payload = Throw e ->
  instanceof_Error e = false ->
  outcome env formData arr h = Throw (new_Error "Failed to generate PDF packet").
Proof.
  intros Harr Hbuilt Hworker He.
  destruct (request_built_run env formData arr h docs _ Harr Hbuilt) as [Hout _].
  rewrite Hout, Hworker. destruct e; [discriminate|reflexivity].
Qed.

Lemma X13_witness :
  outcome odd_rejection_env [] 0%nat (sample_heap sample_docs)
  = Throw (new_Error "Failed to generate PDF packet").
Proof.
  apply (X13_non_error_rejection_replaced odd_rejection_env [] 0%nat
           (sample_heap sample_docs) sample_docs
           (build_payload odd_rejection_env [] (sorted_selection sample_docs)
              (documents sample_payload) [])
           ThrownOther).
  - reflexivity.
  - sample_built.
  - reflexivity.
  - reflexivity.
Defined.

(** * Artifact presentation *)

Lemma endsWith_refl (t : string) : endsWith t t = true.
Proof. destruct t; simpl; [reflexivity|]. now rewrite Ascii.eqb_refl, String.eqb_refl. Qed.

Lemma endsWith_append (s t : string) : endsWith (s +:+ t) t = true.
Proof.
  induction s as [|c s IH]; [apply endsWith_refl|].
  change (String c s +:+ t) with (String c (s +:+ t)).
  cbn [endsWith]. rewrite IH. now destruct (String.eqb _ _).
Qed.

Lemma download_name_pdf (filename : string) :
  endsWith (download_name filename) ".pdf" = true.
Proof.
  unfold download_name. destruct (endsWith filename ".pdf") eqn:He; simpl;
    [exact He | apply endsWith_append].
Qed.

(** X14. When object URLs are available, [downloadPDF] asks for exactly
    one file to be saved, holding the given bytes, under a name that ends
    in [.pdf]: the given name when it already ends so, else the given name
    followed by [.pdf]; a name so completed is not completed again. *)
Theorem X14_download_saves_once_as_pdf
    (pf : Platform) (pdfBytes : list Byte.byte) (filename : string)
    (b : Browser) :
  createObjectURL_throws pf = None ->
  fst (downloadPDF pf pdfBytes filename b) = Return tt
  /\ b_saved (snd (downloadPDF pf pdfBytes filename b))
     = b_saved b ++ [(download_name filename, Some pdfBytes)]
  /\ endsWith (download_name filename) ".pdf" = true
  /\ (download_name filename = filename
      \/ download_name filename = filename +:+ ".pdf")
  /\ download_name (download_name filename) = download_name filename.
Proof.
  intros Hapi. unfold downloadPDF, createObjectURL. rewrite Hapi. simpl.
  rewrite lookup_insert_eq. repeat split.
  - apply download_name_pdf.
  - unfold download_name. destruct (endsWith filename ".pdf"); auto.
  - unfold download_name at 1. now rewrite download_name_pdf.
Qed.

Lemma X14_witness :
  fst (downloadPDF open_platform [Byte.x25] "report" sample_browser) = Return tt
  /\ b_saved (snd (downloadPDF open_platform [Byte.x25] "report" sample_browser))
     = b_saved sample_browser ++ [(download_name "report", Some [Byte.x25])]
  /\ endsWith (download_name "report") ".pdf" = true
  /\ (download_name "report" = "report"
      \/ download_name "report" = "report" +:+ ".pdf")
  /\ download_name (download_name "report") = download_name "report".
Proof.
  apply (X14_download_saves_once_as_pdf open_platform [Byte.x25] "report"
           sample_browser).
  reflexivity.
Defined.

(** The two names of the specification's example are saved alike. *)
Example report_names :
  download_name "report" = "report.pdf"
  /\ download_name "report.pdf" = "report.pdf"
  /\ download_name "report.PDF" = "report.PDF.pdf".
Proof. repeat split. Qed.

Lemma fresh_node_not_in_body (body : list nat) :
  ~ In (fresh (list_to_set body : gset nat)) body.
Proof.
  intros Hin. apply (is_fresh (list_to_set body : gset nat)).
  apply elem_of_list_to_set. now apply list_elem_of_In.
Qed.

Lemma filter_out_absent (link : nat) (body : list nat) :
  ~ In link body ->
  List.filter (fun n => negb (n =? link)%nat) (body ++ [link]) = body.
Proof.
  induction body as [|n body IH]; simpl; intros Hnot.
  - now rewrite Nat.eqb_refl.
  - destruct (n =? link)%nat eqn:Hn.
    + apply Nat.eqb_eq in Hn. elim Hnot. now left.
    + simpl. rewrite IH; [reflexivity|]. intros Hin. apply Hnot. now right.
Qed.

Lemma existsb_last (link : nat) (body : list nat) :
  existsb (Nat.eqb link) (body ++ [link]) = true.
Proof.
  rewrite existsb_app. simpl. rewrite Nat.eqb_refl. now destruct (existsb _ _).
Qed.

(** X15. [downloadPDF] leaves one callback pending, with delay 100.
    Until it runs, the object URL stays live and the link stays in the
    body; once it has run, the live object URLs and the children of the body
    are those from before the call. *)
Theorem X15_download_releases_its_resources
    (pf : Platform) (pdfBytes : list Byte.byte) (filename : string)
    (b : Browser) :
  createObjectURL_throws pf = None ->
  exists link url,
    let b' := snd (downloadPDF pf pdfBytes filename b) in
    let callback := RemoveAndRevokeCallback link url in
    b_timers b' = b_timers b ++ [(100%nat, callback)]
    /\ b_object_urls b' !! url = Some pdfBytes
    /\ In link (b_body b')
    /\ b_object_urls (run_callback callback b') = b_object_urls b
    /\ b_body (run_callback callback b') = b_body b.
Proof.
  intros Hapi. unfold downloadPDF, createObjectURL. rewrite Hapi.
  exists (fresh (list_to_set (b_body b) : gset nat)),
         (fresh (dom (b_object_urls b))).
  cbn [snd fst createElement appendChild click setTimeout b_timers
       b_object_urls b_body b_saved b_windows b_location run_callback].
  rewrite existsb_last.
  cbn [revokeObjectURL removeChild b_object_urls b_body].
  repeat split.
  - apply lookup_insert_eq.
  - apply in_or_app. right. now left.
  - apply delete_insert_dom, is_fresh.
  - apply filter_out_absent, fresh_node_not_in_body.
Qed.

Lemma X15_witness :
  exists link url,
    let b' := snd (downloadPDF open_platform [Byte.x25] "report" sample_browser) in
    let callback := RemoveAndRevokeCallback link url in
    b_timers b' = b_timers sample_browser ++ [(100%nat, callback)]
    /\ b_object_urls b' !! url = Some [Byte.x25]
    /\ In link (b_body b')
    /\ b_object_urls (run_callback callback b') = b_object_urls sample_browser
    /\ b_body (run_callback callback b') = b_body sample_browser.
Proof.
  apply (X15_download_releases_its_resources open_platform [Byte.x25] "report"
           sample_browser).
  reflexivity.
Defined.

(** X16. When [URL.createObjectURL] throws, whatever it throws,
    [previewPDF] and [downloadPDF] fail with their own fixed messages and
    leave the browser as it was: no file saved, no window, no callback. *)
Theorem X16_presenter_failure_is_clean
    (pf : Platform) (pdfBytes : list Byte.byte) (filename : string)
    (b : Browser) (e : Thrown) :
  createObjectURL_throws pf = Some e ->
  previewPDF pf pdfBytes b = (Throw preview_error, b)
  /\ downloadPDF pf pdfBytes filename b = (Throw download_error, b).
Proof.
  intros Hapi. unfold previewPDF, downloadPDF, createObjectURL.
  rewrite Hapi. split; reflexivity.
Qed.

Lemma X16_witness :
  previewPDF broken_platform [Byte.x25] sample_browser
  = (Throw preview_error, sample_browser)
  /\ downloadPDF broken_platform [Byte.x25] "report" sample_browser
     = (Throw download_error, sample_browser).
Proof.
  apply (X16_presenter_failure_is_clean broken_platform [Byte.x25] "report"
           sample_browser
           (ThrownError ClsTypeError "URL.createObjectURL is not a function")).
  reflexivity.
Defined.

(** X17. When a new window can be opened, [previewPDF] opens one on a
    new object URL holding the bytes, does not send the current page
    anywhere and sets no timer; when that window has loaded, the live
    object URLs are those from before the call. *)
Theorem X17_preview_in_new_window
    (pf : Platform) (pdfBytes : list Byte.byte) (b : Browser) :
  createObjectURL_throws pf = None ->
  popup_blocked pf = false ->
  exists url,
    let b' := snd (previewPDF pf pdfBytes b) in
    fst (previewPDF pf pdfBytes b) = Return tt
    /\ b_windows b' = b_windows b ++ [(url, Some (RevokeCallback url))]
    /\ b_object_urls b' !! url = Some pdfBytes
    /\ b_location b' = b_location b
    /\ b_timers b' = b_timers b
    /\ b_object_urls (window_loaded (length (b_windows b)) b') = b_object_urls b.
Proof.
  intros Hapi Hpop. unfold previewPDF, createObjectURL, window_open.
  rewrite Hapi. cbn [b_windows b_object_urls b_body b_saved b_timers b_location].
  rewrite Hpop. exists (fresh (dom (b_object_urls b))).
  unfold set_onload, window_loaded.
  cbn [snd fst b_windows b_object_urls b_body b_saved b_timers b_location].
  assert (Hw : alter (fun win : nat * option Callback =>
                        (fst win, Some (RevokeCallback (fresh (dom (b_object_urls b))))))
                 (length (b_windows b))
                 (b_windows b ++ [(fresh (dom (b_object_urls b)), None)])
               = b_windows b
                 ++ [(fresh (dom (b_object_urls b)),
                      Some (RevokeCallback (fresh (dom (b_object_urls b)))))]).
  { rewrite alter_app_r_alt by lia. now rewrite Nat.sub_diag. }
  rewrite Hw. repeat split.
  - apply lookup_insert_eq.
  - rewrite lookup_app_r by lia. rewrite Nat.sub_diag. simpl.
    apply delete_insert_dom, is_fresh.
Qed.

Lemma X17_witness :
  exists url,
    let b' := snd (previewPDF open_platform [Byte.x25] sample_browser) in
    fst (previewPDF open_platform [Byte.x25] sample_browser) = Return tt
    /\ b_windows b' = b_windows sample_browser ++ [(url, Some (RevokeCallback url))]
    /\ b_object_urls b' !! url = Some [Byte.x25]
    /\ b_location b' = b_location sample_browser
    /\ b_timers b' = b_timers sample_browser
    /\ b_object_urls (window_loaded (length (b_windows sample_browser)) b')
       = b_object_urls sample_browser.
Proof.
  apply (X17_preview_in_new_window open_platform [Byte.x25] sample_browser);
    reflexivity.
Defined.

(** X18. When no new window can be opened, [previewPDF] sends the current
    page to a new object URL holding the bytes and leaves one callback
    pending, with delay 100; no window is opened; once the callback has
    run, the live object URLs are those from before the call. *)
Theorem X18_preview_falls_back_to_current_page
    (pf : Platform) (pdfBytes : list Byte.byte) (b : Browser) :
  createObjectURL_throws pf = None ->
  popup_blocked pf = true ->
  exists url,
    let b' := snd (previewPDF pf pdfBytes b) in
    fst (previewPDF pf pdfBytes b) = Return tt
    /\ b_location b' = Some url
    /\ b_object_urls b' !! url = Some pdfBytes
    /\ b_timers b' = b_timers b ++ [(100%nat, RevokeCallback url)]
    /\ b_windows b' = b_windows b
    /\ b_object_urls (run_callback (RevokeCallback url) b') = b_object_urls b.
Proof.
  intros Hapi Hpop. unfold previewPDF, createObjectURL, window_open.
  rewrite Hapi. cbn [b_windows b_object_urls b_body b_saved b_timers b_location].
  rewrite Hpop. exists (fresh (dom (b_object_urls b))). simpl.
  repeat split.
  - apply lookup_insert_eq.
  - apply delete_insert_dom, is_fresh.
Qed.

Lemma X18_witness :
  exists url,
    let b' := snd (previewPDF blocking_platform [Byte.x25] sample_browser) in
    fst (previewPDF blocking_platform [Byte.x25] sample_browser) = Return tt
    /\ b_location b' = Some url
    /\ b_object_urls b' !! url = Some [Byte.x25]
    /\ b_timers b' = b_timers sample_browser ++ [(100%nat, RevokeCallback url)]
    /\ b_windows b' = b_windows sample_browser
    /\ b_object_urls (run_callback (RevokeCallback url) b')
       = b_object_urls sample_browser.
Proof.
  apply (X18_preview_falls_back_to_current_page blocking_platform [Byte.x25]
           sample_browser); reflexivity.
Defined.

(** * The [documents] table *)

Lemma is_distinct_from_false (a b : option string) :
  is_distinct_from a b = false <-> a = b.
Proof.
  destruct a as [x|], b as [y|]; simpl; split; try congruence; try reflexivity.
  - intros H. apply negb_false_iff, String.eqb_eq in H. now subst.
  - intros H. inversion H. apply negb_false_iff, String.eqb_refl.
Qed.

Lemma is_distinct_from_refl (a : option string) : is_distinct_from a a = false.
Proof. now apply is_distinct_from_false. Qed.

(** X19. An update that changes [url] ends with both columns holding the
    new [url], whatever it wrote to [file_url]. *)
Theorem X19_written_url_wins (NEW OLD : DocumentRow) :
  is_distinct_from (row_url NEW) (row_url OLD) = true ->
  row_url (sync_document_urls NEW OLD) = row_url NEW
  /\ row_file_url (sync_document_urls NEW OLD) = row_url NEW
  /\ row_other (sync_document_urls NEW OLD) = row_other NEW.
Proof.
  intros Hd. unfold sync_document_urls. rewrite Hd. simpl.
  destruct (is_distinct_from (row_url NEW) (row_file_url OLD)); auto.
Qed.

Lemma X19_witness :
  row_url (sync_document_urls
             (mkRow (Some "https://files/old") (Some "https://files/new") [])
             sample_row)
  = Some "https://files/new"
  /\ row_file_url (sync_document_urls
                     (mkRow (Some "https://files/old") (Some "https://files/new") [])
                     sample_row)
     = Some "https://files/new"
  /\ row_other (sync_document_urls
                  (mkRow (Some "https://files/old") (Some "https://files/new") [])
                  sample_row)
     = [].
Proof.
  apply (X19_written_url_wins
           (mkRow (Some "https://files/old") (Some "https://files/new") [])
           sample_row).
  reflexivity.
Defined.

(** X20. An update that leaves [url] as it was and changes [file_url]
    ends with both columns holding the new [file_url]. *)
Theorem X20_written_file_url_is_copied (NEW OLD : DocumentRow) :
  row_url NEW = row_url OLD ->
  is_distinct_from (row_file_url NEW) (row_file_url OLD) = true ->
  row_url (sync_document_urls NEW OLD) = row_file_url NEW
  /\ row_file_url (sync_document_urls NEW OLD) = row_file_url NEW.
Proof.
  intros Hu Hd. unfold sync_document_urls.
  rewrite Hu, is_distinct_from_refl, Hd. auto.
Qed.

Lemma X20_witness :
  row_url (sync_document_urls
             (mkRow (Some "https://files/moved") (Some "https://files/a") [])
             sample_row)
  = Some "https://files/moved"
  /\ row_file_url (sync_document_urls
                     (mkRow (Some "https://files/moved") (Some "https://files/a") [])
                     sample_row)
     = Some "https://files/moved".
Proof.
  apply (X20_written_file_url_is_copied
           (mkRow (Some "https://files/moved") (Some "https://files/a") [])
           sample_row); reflexivity.
Defined.

(** X21. The trigger keeps the two columns equal: a row in which they
    agree before an update has them agree after it, whatever the update
    writes. *)
Theorem X21_update_keeps_columns_in_sync (NEW OLD : DocumentRow) :
  in_sync OLD -> in_sync (sync_document_urls NEW OLD).
Proof.
  unfold in_sync, sync_document_urls. intros Hold.
  destruct (is_distinct_from (row_url NEW) (row_url OLD)) eqn:Hu; simpl.
  - destruct (is_distinct_from (row_url NEW) (row_file_url OLD)); reflexivity.
  - destruct (is_distinct_from (row_file_url NEW) (row_file_url OLD)) eqn:Hf;
      simpl; [reflexivity|].
    apply is_distinct_from_false in Hu, Hf. congruence.
Qed.

Lemma X21_witness :
  in_sync (sync_document_urls
             (mkRow (Some "https://files/x") (Some "https://files/y") [])
             sample_row).
Proof.
  apply (X21_update_keeps_columns_in_sync
           (mkRow (Some "https://files/x") (Some "https://files/y") [])
           sample_row).
  reflexivity.
Defined.

(** A row whose columns disagree stays so under an update that writes
    neither of them: the trigger repairs nothing by itself. *)
Example untouched_row_stays_out_of_sync :
  sync_document_urls (mkRow (Some "https://files/a") (Some "https://files/b") [])
                     (mkRow (Some "https://files/a") (Some "https://files/b") [])
  = mkRow (Some "https://files/a") (Some "https://files/b") [].
Proof. reflexivity. Qed.

(** X22. After the backfill of a table whose [file_url]s are all set (the
    column is [NOT NULL]), no [url] is [NULL], so that the [NOT NULL]
    constraint can be added; rows that had no [url] now have both columns
    equal, every [file_url] is what it was, and rows that had a [url] are
    untouched. *)
Theorem X22_backfill_leaves_no_null_url (table : list DocumentRow) :
  Forall (fun r => row_file_url r <> None) table ->
  Forall (fun r => row_url r <> None) (backfill_url table)
  /\ map row_file_url (backfill_url table) = map row_file_url table
  /\ Forall2 (fun OLD r => match row_url OLD with
                           | None => in_sync r
                           | Some _ => r = OLD
                           end) table (backfill_url table).
Proof.
  induction 1 as [|OLD table Hf _ (IH1 & IH2 & IH3)]; simpl.
  - repeat split; constructor.
  - assert (Hrow : row_url OLD = None ->
                   sync_document_urls
                     (mkRow (row_file_url OLD) (row_file_url OLD) (row_other OLD)) OLD
                   = mkRow (row_file_url OLD) (row_file_url OLD) (row_other OLD)).
    { intros Hnull. unfold sync_document_urls. simpl. rewrite Hnull.
      destruct (row_file_url OLD) as [f|] eqn:Hfu; [|congruence]. simpl.
      now rewrite String.eqb_refl. }
    destruct (row_url OLD) as [u|] eqn:Hu.
    + repeat split; try constructor; auto; try congruence.
      now rewrite Hu.
    + rewrite (Hrow eq_refl). repeat split; try constructor; simpl; auto.
      * now rewrite IH2.
      * now rewrite Hu.
Qed.

Lemma X22_witness :
  Forall (fun r => row_url r <> None)
    (backfill_url [mkRow (Some "https://files/a") None []; sample_row])
  /\ map row_file_url
       (backfill_url [mkRow (Some "https://files/a") None []; sample_row])
     = map row_file_url [mkRow (Some "https://files/a") None []; sample_row]
  /\ Forall2 (fun OLD r => match row_url OLD with
                           | None => in_sync r
                           | Some _ => r = OLD
                           end)
       [mkRow (Some "https://files/a") None []; sample_row]
       (backfill_url [mkRow (Some "https://files/a") None []; sample_row]).
Proof.
  apply (X22_backfill_leaves_no_null_url
           [mkRow (Some "https://files/a") None []; sample_row]).
  repeat constructor; discriminate.
Defined.
